(** * IoT device directory and status API (main.py): a shallow embedding

    The handlers of [main.py] are request-scoped: each one opens a psycopg2
    connection, runs SQL statements through a cursor, shapes the rows and
    returns or raises.  The embedding keeps that structure:

    - the four tables are lists of records (order and duplicates kept);
    - a handler is a computation in a small state-and-exception monad over a
      [Session] (the committed data, the connection's view of it, and the
      open/closed flags of connection and cursor);
    - SQL is modelled operator by operator (joins, WHERE, COUNT, COUNT
      DISTINCT, GROUP BY, ORDER BY) with NULL as [None];
    - timestamps are integers in microseconds, the resolution of both
      PostgreSQL's [timestamp] and Python's [datetime]. *)

From Stdlib Require Import ZArith List String Ascii Bool Lia.
From Stdlib Require Import Sorting.Sorted Sorting.Permutation.
From Stdlib Require Import DecimalString.
Import ListNotations.

Local Open Scope string_scope.
Local Open Scope Z_scope.

(** ** Tables *)

(** Timestamps in microseconds. *)
Definition timestamp := Z.

Definition second : Z := 1000000.
Definition day : Z := 86400 * second.

Module systems.
Record row := mk
  { id : Z;
    name : string;
    description : string }.
End systems.

Module devices.
Record row := mk
  { id : Z;
    system_id : Z;
    device_name : string;
    ip_address : option string;
    facility_name : option string;
    port : option Z;
    is_lora : bool;
    is_use : bool }.
End devices.

Module device_status.
(** Modelled from the spec: the declaration of the [device_status] table is
    not in the repository.  The specification describes [ping_status] and
    [ssh_status] as ping/SSH reachability; they are taken as nullable
    booleans. *)
Record row := mk
  { device_id : Z;
    ping_status : option bool;
    ssh_status : option bool;
    last_data_time : option timestamp }.
End device_status.

Module device_status_history.
Record row := mk
  { checked_at : timestamp;
    total_devices : Z;
    active_devices : Z;
    inactive_devices : Z }.
End device_status_history.

Record DB := mkDB
  { tbl_systems : list systems.row;
    tbl_devices : list devices.row;
    tbl_device_status : list device_status.row;
    tbl_device_status_history : list device_status_history.row }.

Definition set_devices (l : list devices.row) (db : DB) : DB :=
  mkDB (tbl_systems db) l (tbl_device_status db) (tbl_device_status_history db).

(** ** Python values *)

Inductive PyVal :=
| PyNone
| PyBool (b : bool)
| PyInt (n : Z)
| PyStr (s : string).

(** Truth value testing: [None], [False], [0] and the empty string are falsy. *)
Definition truthy (v : PyVal) : bool :=
  match v with
  | PyNone => false
  | PyBool b => b
  | PyInt n => negb (n =? 0)
  | PyStr s => negb (String.eqb s "")
  end.

Definition py_opt_str (o : option string) : PyVal :=
  match o with Some s => PyStr s | None => PyNone end.

Definition py_opt_int (o : option Z) : PyVal :=
  match o with Some n => PyInt n | None => PyNone end.

(** [str.isspace] on the characters below 256: the ASCII controls 9-13 and
    28-31, the space, NEL (133) and the no-break space (160).  Text is
    restricted to these code points, one [ascii] per character. *)
Definition py_isspace (c : ascii) : bool :=
  let n := N_of_ascii c in
  ((9 <=? n) && (n <=? 13) || (28 <=? n) && (n <=? 32)
   || (n =? 133) || (n =? 160))%N.

Fixpoint lstrip (s : string) : string :=
  match s with
  | EmptyString => EmptyString
  | String c s' => if py_isspace c then lstrip s' else s
  end.

Fixpoint rstrip (s : string) : string :=
  match s with
  | EmptyString => EmptyString
  | String c s' =>
      match rstrip s' with
      | EmptyString => if py_isspace c then EmptyString else String c EmptyString
      | t => String c t
      end
  end.

(** [str.strip()] with no argument. *)
Definition strip (s : string) : string := rstrip (lstrip s).

(** [str(n)] for an integer, as an f-string formats it. *)
Definition str_of_int (n : Z) : string := NilZero.string_of_int (Z.to_int n).

(** ** Exceptions and the handler monad *)

Inductive Exception :=
| HTTPException (status_code : Z) (detail : string)
| AttributeError (msg : string)
| TypeError (msg : string)
| DatabaseError (msg : string).

(** [str(e)] as used for the detail of the 400 responses. *)
Definition str_of_exception (e : Exception) : string :=
  match e with
  | HTTPException _ d => d
  | AttributeError m => m
  | TypeError m => m
  | DatabaseError m => m
  end.

Inductive Result (A : Type) :=
| Return (a : A)
| Raise (e : Exception).
Arguments Return {A} a.
Arguments Raise {A} e.

(** The state of one request's connection.  [committed] is what the database
    holds; [view] is what the connection's open transaction sees (psycopg2
    runs without autocommit, so writes stay in the view until [commit]). *)
Record Session := mkSession
  { committed : DB;
    view : DB;
    conn_closed : bool;
    cursor_closed : bool }.

Definition M (A : Type) : Type := Session -> Result A * Session.

Definition ret {A} (a : A) : M A := fun s => (Return a, s).

Definition bind {A B} (m : M A) (k : A -> M B) : M B :=
  fun s =>
    match m s with
    | (Return a, s') => k a s'
    | (Raise e, s') => (Raise e, s')
    end.

Definition raise {A} (e : Exception) : M A := fun s => (Raise e, s).

Notation "x <- c1 ;; c2" := (bind c1 (fun x => c2))
  (at level 61, c1 at next level, right associativity).
Notation "c1 ;; c2" := (bind c1 (fun _ => c2))
  (at level 61, right associativity).

(** [try: body / except Exception as e: handler e / finally: final].
    Every exception of the model derives from [Exception], so the handler
    sees all of them; the [finally] block runs on each way out. *)
Definition try_except_finally {A}
    (body : M A) (handler : Exception -> M A) (final : M unit) : M A :=
  fun s =>
    let '(r, s1) :=
      match body s with
      | (Return a, s') => (Return a, s')
      | (Raise e, s') => handler e s'
      end in
    match final s1 with
    | (Return _, s2) => (r, s2)
    | (Raise e, s2) => (Raise e, s2)
    end.

(** [get_db_connection()] followed by [conn.cursor()]. *)
Definition get_db_connection (db : DB) : Session :=
  mkSession db db false false.

(** [cursor.execute] of a SELECT, with the rows it makes available. *)
Definition execute {A} (q : DB -> A) : M A :=
  fun s => (Return (q (view s)), s).

(** [cursor.execute] of a write: the statement either fails with the
    database's error text or changes the connection's view. *)
Definition execute_write {A} (w : DB -> string + (A * DB)) : M A :=
  fun s =>
    match w (view s) with
    | inl msg => (Raise (DatabaseError msg), s)
    | inr (a, db') =>
        (Return a, mkSession (committed s) db' (conn_closed s) (cursor_closed s))
    end.

Definition commit : M unit :=
  fun s => (Return tt, mkSession (view s) (view s) (conn_closed s) (cursor_closed s)).

Definition rollback : M unit :=
  fun s => (Return tt,
            mkSession (committed s) (committed s) (conn_closed s) (cursor_closed s)).

Definition cursor_close : M unit :=
  fun s => (Return tt, mkSession (committed s) (view s) (conn_closed s) true).

(** [conn.close()] discards whatever the transaction had not committed. *)
Definition conn_close : M unit :=
  fun s => (Return tt, mkSession (committed s) (committed s) true (cursor_closed s)).

(** [cursor.fetchone()]: the first row or [None]; [cursor.fetchall()] is the
    list itself. *)
Definition fetchone {A} (rows : list A) : option A := hd_error rows.

(** [row[key]] on the result of [fetchone()]: subscripting [None] raises. *)
Definition subscript {A B} (r : option A) (key : A -> B) : M B :=
  match r with
  | Some a => ret (key a)
  | None => raise (TypeError "'NoneType' object is not subscriptable")
  end.

(** Running a handler for one request against a database. *)
Definition run {A} (h : M A) (db : DB) : Result A * Session :=
  h (get_db_connection db).

(** ** SQL operators *)

(** [l JOIN r ON on]. *)
Definition inner_join {A B} (on : A -> B -> bool) (l : list A) (r : list B)
  : list (A * B) :=
  flat_map (fun a => map (pair a) (filter (on a) r)) l.

(** [l LEFT JOIN r ON on]: a left row without a match is kept, padded with
    NULLs. *)
Definition left_join {A B} (on : A -> B -> bool) (l : list A) (r : list B)
  : list (A * option B) :=
  flat_map (fun a =>
              match filter (on a) r with
              | [] => [(a, None)]
              | ms => map (fun b => (a, Some b)) ms
              end) l.

(** [COUNT( * )]. *)
Definition count {A} (rows : list A) : Z := Z.of_nat (List.length rows).

Fixpoint cat_somes {A} (l : list (option A)) : list A :=
  match l with
  | [] => []
  | Some a :: l' => a :: cat_somes l'
  | None :: l' => cat_somes l'
  end.

(** [COUNT(DISTINCT e)]: the distinct non-NULL values of [e]. *)
Definition count_distinct {A} (e : A -> option Z) (rows : list A) : Z :=
  Z.of_nat (List.length (nodup Z.eq_dec (cat_somes (map e rows)))).

(** Stable insertion by key, for [ORDER BY key ASC].  PostgreSQL leaves the
    order of rows with equal keys open; the model keeps their input order. *)
Fixpoint insert_by {A} (key : A -> Z) (a : A) (l : list A) : list A :=
  match l with
  | [] => [a]
  | b :: l' => if key a <? key b then a :: l else b :: insert_by key a l'
  end.

Definition order_by {A} (key : A -> Z) (l : list A) : list A :=
  fold_right (insert_by key) [] l.

(** The order [ORDER BY key ASC] establishes. *)
Definition le_by {A} (key : A -> Z) (a b : A) : Prop := key a <= key b.

(** ** The request model and the write endpoints *)

(** [class DeviceCreate(BaseModel)]: the body of POST and PUT. *)
Record DeviceCreate := mkDeviceCreate
  { system_id : Z;
    device_name : string;
    ip_address : option string;
    facility_name : option string;
    port : option Z;
    is_lora : bool }.

(** Attribute access on a [DeviceCreate] instance.  The model declares six
    fields; any other name raises [AttributeError]. *)
Definition getattr (device : DeviceCreate) (name : string) : M PyVal :=
  if String.eqb name "system_id" then ret (PyInt (system_id device))
  else if String.eqb name "device_name" then ret (PyStr (device_name device))
  else if String.eqb name "ip_address" then ret (py_opt_str (ip_address device))
  else if String.eqb name "facility_name" then ret (py_opt_str (facility_name device))
  else if String.eqb name "port" then ret (py_opt_int (port device))
  else if String.eqb name "is_lora" then ret (PyBool (is_lora device))
  else raise (AttributeError
                ("'DeviceCreate' object has no attribute '" ++ name ++ "'")%string).

(** [v.strip()]. *)
Definition py_strip (v : PyVal) : M PyVal :=
  match v with
  | PyStr s => ret (PyStr (strip s))
  | _ => raise (AttributeError "object has no attribute 'strip'")
  end.

Definition is_not_none (v : PyVal) : bool :=
  match v with PyNone => false | _ => true end.

(** What the table declarations decide.  They are not part of the
    repository, so the generated key, the column default and the
    constraint checks of the [devices] table are parameters: a check answers
    [Some msg] when the statement is rejected with error text [msg]. *)
Record Schema := mkSchema
  { next_device_id : DB -> Z;
    default_is_use : bool;
    insert_violation : DB -> devices.row -> option string;
    update_violation : DB -> Z -> list (string * PyVal) -> option string;
    delete_violation : DB -> Z -> option string }.

Module created.
Record t := mk { id : Z; message : string }.
End created.

(** [INSERT INTO devices (...) VALUES (...) RETURNING id]. *)
Definition insert_device (sch : Schema)
    (sid : Z) (dname : string) (ip : option string) (fac : option string)
    (prt : option Z) (lora : bool) (db : DB) : string + (list Z * DB) :=
  let r := devices.mk (next_device_id sch db) sid dname ip fac prt lora
                      (default_is_use sch) in
  match insert_violation sch db r with
  | Some msg => inl msg
  | None => inr ([devices.id r], set_devices (tbl_devices db ++ [r])%list db)
  end.

(** One [column = value] of the SET clause applied to a row.  Unquoted
    identifiers fold to lower case, so [is_LoRa] names the [is_lora] column. *)
Definition assign (r : devices.row) (cv : string * PyVal) : devices.row :=
  let '(col, v) := cv in
  let 'devices.mk i sid dn ip fac prt lora use := r in
  if String.eqb col "system_id" then
    match v with PyInt n => devices.mk i n dn ip fac prt lora use | _ => r end
  else if String.eqb col "device_name" then
    match v with PyStr s => devices.mk i sid s ip fac prt lora use | _ => r end
  else if String.eqb col "ip_address" then
    match v with
    | PyStr s => devices.mk i sid dn (Some s) fac prt lora use
    | PyNone => devices.mk i sid dn None fac prt lora use
    | _ => r
    end
  else if String.eqb col "facility_name" then
    match v with PyStr s => devices.mk i sid dn ip (Some s) prt lora use | _ => r end
  else if String.eqb col "port" then
    match v with PyInt n => devices.mk i sid dn ip fac (Some n) lora use | _ => r end
  else if String.eqb col "is_LoRa" then
    match v with PyBool b => devices.mk i sid dn ip fac prt b use | _ => r end
  else r.

(** [UPDATE devices SET ... WHERE id = device_id]. *)
Definition update_devices (sch : Schema) (device_id : Z)
    (sets : list (string * PyVal)) (db : DB) : string + (unit * DB) :=
  match update_violation sch db device_id sets with
  | Some msg => inl msg
  | None =>
      inr (tt, set_devices
                 (map (fun r => if devices.id r =? device_id
                                then fold_left assign sets r else r)
                      (tbl_devices db)) db)
  end.

(** [DELETE FROM devices WHERE id = device_id]. *)
Definition delete_devices (sch : Schema) (device_id : Z) (db : DB)
  : string + (unit * DB) :=
  match delete_violation sch db device_id with
  | Some msg => inl msg
  | None =>
      inr (tt, set_devices
                 (filter (fun r => negb (devices.id r =? device_id))
                         (tbl_devices db)) db)
  end.

(** [SELECT id FROM devices WHERE id = device_id]. *)
Definition select_device_id (device_id : Z) (db : DB) : list Z :=
  map devices.id (filter (fun r => devices.id r =? device_id) (tbl_devices db)).

Section Handlers.

Variable sch : Schema.

(** POST /devices/ *)
Definition add_device (device : DeviceCreate) : M created.t :=
  let ip :=
    match ip_address device with
    | Some s => if truthy (PyStr s) && truthy (PyStr (strip s))
                then Some s else None
    | None => None
    end in
  new_id <-
    try_except_finally
      (rows <- execute_write
                 (insert_device sch (system_id device) (device_name device) ip
                                (facility_name device) (port device)
                                (is_lora device));;
       new_id <- subscript (fetchone rows) (fun i => i);;
       commit;;
       ret new_id)
      (fun e => rollback;; raise (HTTPException 400 (str_of_exception e)))
      (cursor_close;; conn_close);;
  ret (created.mk new_id "Device added successfully").

(** An [if cond: update_fields.append(...); values.append(...)] step.  The
    two lists of the source grow together and are kept as one list of pairs
    (column, value). *)
Definition append_if (cond : bool) (col : string) (v : PyVal)
    (sets : list (string * PyVal)) : list (string * PyVal) :=
  if cond then (sets ++ [(col, v)])%list else sets.

(** PUT /devices/{device_id} *)
Definition update_device (device_id : Z) (device : DeviceCreate) : M string :=
  found <- execute (select_device_id device_id);;
  match fetchone found with
  | None =>
      cursor_close;; conn_close;;
      raise (HTTPException 404 "Device not found")
  | Some _ =>
      let sets := [] in
      v <- getattr device "system_id";;
      let sets := append_if (truthy v) "system_id" v sets in
      v <- getattr device "device_name";;
      let sets := append_if (truthy v) "device_name" v sets in
      v <- getattr device "ip_address";;
      sets <- (if is_not_none v
               then (stripped <- py_strip v;;
                     ret (append_if true "ip_address"
                            (if truthy stripped then v else PyNone) sets))
               else ret sets);;
      v <- getattr device "facility_name";;
      let sets := append_if (truthy v) "facility_name" v sets in
      v <- getattr device "port";;
      let sets := append_if (truthy v) "port" v sets in
      v <- getattr device "is_LoRa";;
      let sets := append_if (is_not_none v) "is_LoRa" v sets in
      match sets with
      | [] =>
          cursor_close;; conn_close;;
          raise (HTTPException 400 "No fields to update")
      | _ =>
          try_except_finally
            (execute_write (update_devices sch device_id sets);;
             commit)
            (fun e => rollback;; raise (HTTPException 400 (str_of_exception e)))
            (cursor_close;; conn_close);;
          ret ("Device " ++ str_of_int device_id ++ " updated successfully")%string
      end
  end.

(** DELETE /devices/{device_id} *)
Definition delete_device (device_id : Z) : M string :=
  found <- execute (select_device_id device_id);;
  match fetchone found with
  | None =>
      cursor_close;; conn_close;;
      raise (HTTPException 404 "Device not found")
  | Some _ =>
      try_except_finally
        (execute_write (delete_devices sch device_id);;
         commit)
        (fun e => rollback;; raise (HTTPException 400 (str_of_exception e)))
        (cursor_close;; conn_close);;
      ret ("Device " ++ str_of_int device_id ++ " deleted successfully")%string
  end.

End Handlers.

(** ** SQL conditions over nullable values (three-valued logic) *)

Definition sql_ge (a b : option Z) : option bool :=
  match a, b with Some x, Some y => Some (y <=? x) | _, _ => None end.

Definition sql_lt (a b : option Z) : option bool :=
  match a, b with Some x, Some y => Some (x <? y) | _, _ => None end.

Definition sql_eq (a b : option Z) : option bool :=
  match a, b with Some x, Some y => Some (x =? y) | _, _ => None end.

Definition sql_and (a b : option bool) : option bool :=
  match a, b with
  | Some false, _ | _, Some false => Some false
  | Some true, Some true => Some true
  | _, _ => None
  end.

Definition sql_or (a b : option bool) : option bool :=
  match a, b with
  | Some true, _ | _, Some true => Some true
  | Some false, Some false => Some false
  | _, _ => None
  end.

Definition is_null {A} (a : option A) : option bool :=
  Some (match a with None => true | Some _ => false end).

Definition is_not_null {A} (a : option A) : option bool :=
  Some (match a with None => false | Some _ => true end).

(** A row passes WHERE, ON or CASE WHEN only when the condition is true;
    false and unknown both reject it. *)
Definition holds (c : option bool) : bool :=
  match c with Some true => true | _ => false end.

(** A column of the nullable side of a LEFT JOIN. *)
Definition col {A B} (r : option A) (f : A -> option B) : option B :=
  match r with Some a => f a | None => None end.

(** [NOW() - INTERVAL '5 days'] *)
Definition stale_before (now : timestamp) : option Z := Some (now - 5 * day).

(** [devices d JOIN systems s ON d.system_id = s.id] *)
Definition devices_systems (db : DB) : list (devices.row * systems.row) :=
  inner_join (fun d s => devices.system_id d =? systems.id s)
             (tbl_devices db) (tbl_systems db).

(** [... LEFT JOIN device_status ds ON d.id = ds.device_id] over the join
    above *)
Definition devices_systems_status (db : DB)
  : list (devices.row * systems.row * option device_status.row) :=
  left_join (fun ds st => devices.id (fst ds) =? device_status.device_id st)
            (devices_systems db) (tbl_device_status db).

(** [devices d LEFT JOIN device_status ds ON ds.device_id = d.id] *)
Definition devices_status (db : DB)
  : list (devices.row * option device_status.row) :=
  left_join (fun d st => device_status.device_id st =? devices.id d)
            (tbl_devices db) (tbl_device_status db).

Definition ldt (st : option device_status.row) : option timestamp :=
  col st device_status.last_data_time.

(** ** The listing endpoints *)

Module device_entry.
Record t := mk
  { system_id : Z;
    system_name : string;
    device_name : string;
    facility_name : option string;
    ip : option string;
    port : option Z;
    is_lora : bool;
    is_use : bool }.
End device_entry.

Module devices_response.
Record t := mk { total : Z; devices : list device_entry.t }.
End devices_response.

(** GET /devices/ *)
Definition get_devices : M devices_response.t :=
  devices <- execute devices_systems;;
  cursor_close;; conn_close;;
  ret (devices_response.mk
         (count devices)
         (map (fun device : devices.row * systems.row =>
                 let (d, s) := device in
                 device_entry.mk (systems.id s) (systems.description s)
                                 (devices.device_name d) (devices.facility_name d)
                                 (devices.ip_address d) (devices.port d)
                                 (devices.is_lora d) (devices.is_use d))
              devices)).

(** The row dictionary of the two /last queries. *)
Module last_row.
Record t := mk
  { device_id : Z;
    device_name : string;
    system_id : Z;
    system_name : string;
    ip_address : option string;
    is_lora : bool;
    ping_status : option bool;
    ssh_status : option bool;
    last_data_time : option timestamp }.
End last_row.

Definition select_last
    (r : devices.row * systems.row * option device_status.row) : last_row.t :=
  let '(d, s, st) := r in
  last_row.mk (devices.id d) (devices.device_name d) (devices.system_id d)
              (systems.name s) (devices.ip_address d) (devices.is_lora d)
              (col st device_status.ping_status)
              (col st device_status.ssh_status)
              (ldt st).

Module last_entry.
Record t := mk
  { device_name : string;
    system_id : Z;
    system_name : string;
    ip_address : option string;
    is_lora : bool;
    ping_status : option bool;
    ssh_status : option bool;
    last_data_time : option timestamp }.
End last_entry.

Module last_response.
Record t := mk { count : Z; devices : list last_entry.t }.
End last_response.

(** GET /last *)
Definition get_all_devices_status : M last_response.t :=
  devices <- execute (fun db => map select_last (devices_systems_status db));;
  cursor_close;; conn_close;;
  let devices_list :=
    map (fun device =>
           last_entry.mk
             (last_row.device_name device)
             (last_row.system_id device)
             (last_row.system_name device)
             (if last_row.is_lora device then None
              else last_row.ip_address device)
             (last_row.is_lora device)
             (if last_row.is_lora device then None
              else last_row.ping_status device)
             (if last_row.is_lora device then None
              else last_row.ssh_status device)
             (last_row.last_data_time device))
        devices in
  ret (last_response.mk (count devices_list) devices_list).

(** The body of the [for device in devices] loop of GET /last/{system_id}:
    the three keys of a LoRa row are overwritten with [None]. *)
Definition null_lora (device : last_row.t) : last_row.t :=
  if last_row.is_lora device then
    last_row.mk (last_row.device_id device) (last_row.device_name device)
                (last_row.system_id device) (last_row.system_name device)
                None (last_row.is_lora device) None None
                (last_row.last_data_time device)
  else device.

(** GET /last/{system_id} *)
Definition get_latest_device_status (system_id : Z) : M (list last_row.t) :=
  devices <- execute (fun db =>
               map select_last
                   (filter (fun r => devices.system_id (fst (fst r)) =? system_id)
                           (devices_systems_status db)));;
  cursor_close;; conn_close;;
  ret (map null_lora devices).

Module ip_entry.
Record t := mk
  { device_name : string;
    facility_name : option string;
    system_name : string;
    description : string;
    ip : option string;
    ping_status : option bool;
    ssh_status : option bool }.
End ip_entry.

Module ip_response.
Record t := mk { total : Z; devices : list ip_entry.t }.
End ip_response.

(** GET /ip *)
Definition get_ip_devices_status : M ip_response.t :=
  devices <- execute (fun db =>
               filter (fun r => holds (is_not_null (devices.ip_address (fst (fst r)))))
                      (devices_systems_status db));;
  cursor_close;; conn_close;;
  ret (ip_response.mk
         (count devices)
         (map (fun device : devices.row * systems.row * option device_status.row =>
                 let '(d, s, st) := device in
                 ip_entry.mk (devices.device_name d) (devices.facility_name d)
                             (systems.name s) (systems.description s)
                             (devices.ip_address d)
                             (col st device_status.ping_status)
                             (col st device_status.ssh_status))
              devices)).

(** ** The health summaries *)

Definition systems_row_eq_dec (a b : systems.row) : {a = b} + {a <> b}.
Proof.
  decide equality; auto using string_dec, Z.eq_dec.
Defined.

(** [CASE WHEN c THEN v END]: NULL unless the condition is true. *)
Definition case_when {A} (c : option bool) (v : option A) : option A :=
  if holds c then v else None.

Definition dev_id (d : option devices.row) : option Z :=
  col d (fun r => Some (devices.id r)).

(** [systems s LEFT JOIN devices d ON s.id = d.system_id
     LEFT JOIN device_status ds ON d.id = ds.device_id] *)
Definition systems_devices_status (db : DB)
  : list (systems.row * option devices.row * option device_status.row) :=
  left_join (fun sd st =>
               holds (sql_eq (dev_id (snd sd)) (Some (device_status.device_id st))))
            (left_join (fun s d => systems.id s =? devices.system_id d)
                       (tbl_systems db) (tbl_devices db))
            (tbl_device_status db).

(** [GROUP BY s.id, s.name, s.description]: the three columns are the whole
    [systems] row, so a group is the set of joined rows of one distinct
    [systems] row. *)
Definition group_by_system
    (rows : list (systems.row * option devices.row * option device_status.row))
  : list (systems.row
          * list (systems.row * option devices.row * option device_status.row)) :=
  map (fun k => (k, filter (fun r => if systems_row_eq_dec (fst (fst r)) k
                                     then true else false) rows))
      (nodup systems_row_eq_dec (map (fun r => fst (fst r)) rows)).

Module system_status.
Record t := mk
  { system_id : Z;
    system_name : string;
    description : string;
    system_total_devices : Z;
    active_devices : Z;
    inactive_devices : Z }.
End system_status.

(** The select list of the per-system query of GET /check, on one group. *)
Definition aggregate_system (now : timestamp)
    (g : systems.row
         * list (systems.row * option devices.row * option device_status.row))
  : system_status.t :=
  let (s, rows) := g in
  system_status.mk
    (systems.id s) (systems.name s) (systems.description s)
    (count_distinct (fun r => dev_id (snd (fst r))) rows)
    (count_distinct
       (fun r => case_when (sql_ge (ldt (snd r)) (stale_before now))
                           (dev_id (snd (fst r)))) rows)
    (count_distinct
       (fun r => case_when (sql_or (is_null (ldt (snd r)))
                                   (sql_lt (ldt (snd r)) (stale_before now)))
                           (dev_id (snd (fst r)))) rows).

Definition select_system_status (now : timestamp) (db : DB)
  : list system_status.t :=
  order_by system_status.system_id
           (map (aggregate_system now)
                (group_by_system (systems_devices_status db))).

(** The WHERE clause shared by the "active" queries:
    [ds.last_data_time IS NOT NULL AND ds.last_data_time >= NOW() - INTERVAL '5 days'] *)
Definition active_cond (now : timestamp) (st : option device_status.row)
  : option bool :=
  sql_and (is_not_null (ldt st)) (sql_ge (ldt st) (stale_before now)).

(** [ds.last_data_time IS NULL OR ds.last_data_time < NOW() - INTERVAL '5 days'] *)
Definition inactive_cond (now : timestamp) (st : option device_status.row)
  : option bool :=
  sql_or (is_null (ldt st)) (sql_lt (ldt st) (stale_before now)).

(** [SELECT COUNT(DISTINCT d.id) ... WHERE active] of GET /check. *)
Definition select_active_devices (now : timestamp) (db : DB) : list Z :=
  [count_distinct (fun r => Some (devices.id (fst r)))
                  (filter (fun r => holds (active_cond now (snd r)))
                          (devices_status db))].

Module check_response.
Record t := mk
  { total_devices : Z;
    active_devices : Z;
    inactive_devices : Z;
    systems : list system_status.t }.
End check_response.

(** GET /check; [now] is the database's [NOW()] for the request. *)
Definition get_device_status_check (now : timestamp) : M check_response.t :=
  r <- execute (fun db => [count (tbl_devices db)]);;
  total_devices <- subscript (fetchone r) (fun n => n);;
  r <- execute (select_active_devices now);;
  active_devices <- subscript (fetchone r) (fun n => n);;
  let inactive_devices := total_devices - active_devices in
  system_status <- execute (select_system_status now);;
  cursor_close;; conn_close;;
  ret (check_response.mk total_devices active_devices inactive_devices
                         system_status).

(** The row dictionary of the two device lists of GET /check/{system_id}. *)
Module check_row.
Record t := mk
  { device_id : Z;
    device_name : string;
    facility_name : option string;
    ip_address : option string;
    port : option Z;
    is_lora : bool;
    last_data_time : option timestamp;
    ping_status : option bool;
    ssh_status : option bool }.
End check_row.

Definition select_check (r : devices.row * option device_status.row)
  : check_row.t :=
  let (d, st) := r in
  check_row.mk (devices.id d) (devices.device_name d) (devices.facility_name d)
               (devices.ip_address d) (devices.port d) (devices.is_lora d)
               (ldt st)
               (col st device_status.ping_status)
               (col st device_status.ssh_status).

(** [devices d LEFT JOIN device_status ds ... WHERE d.system_id = %s AND cond] *)
Definition system_devices_where
    (cond : option device_status.row -> option bool) (system_id : Z) (db : DB)
  : list (devices.row * option device_status.row) :=
  filter (fun r => holds (sql_and (Some (devices.system_id (fst r) =? system_id))
                                  (cond (snd r))))
         (devices_status db).

Module check_system_response.
Record t := mk
  { system_id : Z;
    system_name : string;
    total_devices : Z;
    active_devices : Z;
    inactive_devices : Z;
    inactive_device_list : list check_row.t;
    active_device_list : list check_row.t }.
End check_system_response.

(** GET /check/{system_id} *)
Definition get_device_status_check_system (now : timestamp) (system_id : Z)
  : M check_system_response.t :=
  r <- execute (fun db =>
         map systems.description
             (filter (fun s => systems.id s =? system_id) (tbl_systems db)));;
  match fetchone r with
  | None =>
      raise (HTTPException 404
               ("System with ID " ++ str_of_int system_id ++ " not found")%string)
  | Some system_name =>
      r <- execute (fun db =>
             [count (filter (fun d => devices.system_id d =? system_id)
                            (tbl_devices db))]);;
      total_devices <- subscript (fetchone r) (fun n => n);;
      r <- execute (fun db =>
             [count (system_devices_where (active_cond now) system_id db)]);;
      active_devices <- subscript (fetchone r) (fun n => n);;
      let inactive_devices := total_devices - active_devices in
      inactive_list <- execute (fun db =>
             map select_check
                 (system_devices_where (inactive_cond now) system_id db));;
      active_list <- execute (fun db =>
             map select_check
                 (system_devices_where (active_cond now) system_id db));;
      cursor_close;; conn_close;;
      ret (check_system_response.mk system_id system_name total_devices
             active_devices inactive_devices inactive_list active_list)
  end.

(** ** The history endpoints *)

(** GET /time: [ORDER BY checked_at DESC LIMIT 1], then
    [cursor.fetchone()["checked_at"]]. *)
Definition get_update_time : M timestamp :=
  r <- execute (fun db =>
         firstn 1 (order_by (fun h => - device_status_history.checked_at h)
                            (tbl_device_status_history db)));;
  update_time <- subscript (fetchone r) device_status_history.checked_at;;
  cursor_close;; conn_close;;
  ret update_time.

(** [strftime("%Y-%m-%d %H:%M:%S")] prints a datetime without its
    microseconds; read back as a timestamp by the database, the text denotes
    the start of that second. *)
Definition strftime_seconds (t : timestamp) : timestamp := t - t mod second.

Module history_response.
Record t := mk { total : Z; history : list device_status_history.row }.
End history_response.

(** GET /device-history; [now] is [datetime.now()] of the request. *)
Definition get_device_history (now : timestamp) : M history_response.t :=
  let days_ago := strftime_seconds (now - 3 * day) in
  history_data <- execute (fun db =>
         order_by device_status_history.checked_at
                  (filter (fun h => holds (sql_ge (Some (device_status_history.checked_at h))
                                                  (Some days_ago)))
                          (tbl_device_status_history db)));;
  cursor_close;; conn_close;;
  ret (history_response.mk (count history_data) history_data).

(** ** Reference notions for the statements *)

(** A string made of whitespace only (the empty string included). *)
Fixpoint all_space (s : string) : bool :=
  match s with
  | EmptyString => true
  | String c s' => py_isspace c && all_space s'
  end.

(** The status row of a device, when [device_status] holds one. *)
Definition status_of (db : DB) (i : Z) : option device_status.row :=
  find (fun st => device_status.device_id st =? i) (tbl_device_status db).

(** The classification as the specification words it: active exactly when
    the last data time is present and not older than five days. *)
Definition spec_active (now : timestamp) (t : option timestamp) : bool :=
  match t with
  | Some t => now - 5 * day <=? t
  | None => false
  end.

Definition device_active (now : timestamp) (db : DB) (d : devices.row) : bool :=
  spec_active now (ldt (status_of db (devices.id d))).

(** Modelled from the spec: the declaration of the [device_status] table is
    not in the repository.  The specification's data model gives it "one row
    per device": no two rows share a [device_id]. *)
Definition one_status_per_device (db : DB) : Prop :=
  NoDup (map device_status.device_id (tbl_device_status db)).

(** ** Sample data *)

Definition sample_schema : Schema :=
  mkSchema
    (fun db => 1 + fold_right Z.max 0 (map devices.id (tbl_devices db)))
    true
    (fun db r =>
       if existsb (fun s => systems.id s =? devices.system_id r) (tbl_systems db)
       then None else Some "foreign key violation on system_id")
    (fun _ _ _ => None)
    (fun _ _ => None).

Definition sample_now : timestamp := 10 * day + 500000.

Definition sample_db : DB :=
  mkDB
    [systems.mk 1 "plant-a" "Plant A"; systems.mk 2 "plant-b" "Plant B"]
    [devices.mk 1 1 "Gate-01" (Some "10.0.0.5") None (Some 22) false true;
     devices.mk 2 1 "Lora-01" (Some "10.0.0.9") (Some "roof") None true true;
     devices.mk 3 1 "Gate-02" None None None false true]
    [device_status.mk 1 (Some true) (Some true) (Some (sample_now - 4 * day));
     device_status.mk 2 (Some true) (Some false)
                      (Some (sample_now - 5 * day - second))]
    [device_status_history.mk (7 * day + 600000) 3 1 2;
     device_status_history.mk (7 * day + 200000) 3 1 2;
     device_status_history.mk (6 * day) 3 2 1].

Definition empty_db : DB := mkDB [] [] [] [].

(** A state the schema excludes: two status rows for device 1, one fresh
    and one without data. *)
Definition two_status_db : DB :=
  mkDB
    [systems.mk 1 "plant-a" "Plant A"]
    [devices.mk 1 1 "Gate-01" (Some "10.0.0.5") None (Some 22) false true]
    [device_status.mk 1 (Some true) (Some true) (Some (sample_now - day));
     device_status.mk 1 None None None]
    [].

Definition blank_body : DeviceCreate :=
  mkDeviceCreate 0 "" None None None false.

Definition blank_ip_body : DeviceCreate :=
  mkDeviceCreate 1 "Gate-03" (Some "   ") None (Some 22) false.

(** ** The remaining listing endpoints *)

Module system_device_entry.
Record t := mk
  { system_id : Z;
    system_name : string;
    system_description : string;
    device_name : string;
    facility_name : option string;
    ip : option string;
    port : option Z;
    is_lora : bool;
    is_use : bool }.
End system_device_entry.

Module system_devices_response.
Record t := mk { total : Z; devices : list system_device_entry.t }.
End system_devices_response.

(** GET /devices/{system_id}.  The source names this handler [get_devices]
    too (the second definition of that name); both routes stay registered. *)
Definition get_devices_system_id (system_id : Z) : M system_devices_response.t :=
  devices <- execute (fun db =>
               filter (fun r => systems.id (snd r) =? system_id)
                      (devices_systems db));;
  cursor_close;; conn_close;;
  match devices with
  | [] =>
      raise (HTTPException 404
               ("No devices found for system_id " ++ str_of_int system_id)%string)
  | _ =>
      let devices_list :=
        map (fun device : devices.row * systems.row =>
               let (d, s) := device in
               system_device_entry.mk
                 (systems.id s) (systems.name s) (systems.description s)
                 (devices.device_name d) (devices.facility_name d)
                 (devices.ip_address d) (devices.port d)
                 (devices.is_lora d) (devices.is_use d))
            devices in
      ret (system_devices_response.mk (count devices_list) devices_list)
  end.

Module lora_entry.
Record t := mk
  { device_name : string;
    facility_name : option string;
    system_name : string;
    description : string;
    last_data_time : option timestamp }.
End lora_entry.

Module lora_response.
Record t := mk { total : Z; devices : list lora_entry.t }.
End lora_response.


Definition padded_ip_body : DeviceCreate :=
  mkDeviceCreate 1 "Gate-04" (Some " 10.0.0.7 ") None (Some 22) false.

(** A schema whose checks reject every write. *)
Definition rejecting_schema : Schema :=
  mkSchema
    (fun db => 1 + fold_right Z.max 0 (map devices.id (tbl_devices db)))
    true
    (fun _ _ => Some "permission denied for table devices")
    (fun _ _ _ => Some "permission denied for table devices")
    (fun _ _ => Some "permission denied for table devices").

(** The value POST /devices/ binds to the [ip_address] column:
    [device.ip_address if device.ip_address and device.ip_address.strip() else None]. *)
Definition normalized_ip (device : DeviceCreate) : option string :=
  match ip_address device with
  | Some s => if truthy (PyStr s) && truthy (PyStr (strip s))
              then Some s else None
  | None => None
  end.

(** The row POST /devices/ asks the database to store. *)
Definition new_device_row (sch : Schema) (db : DB) (device : DeviceCreate)
  : devices.row :=
  devices.mk (next_device_id sch db) (system_id device) (device_name device)
             (normalized_ip device) (facility_name device) (port device)
             (is_lora device) (default_is_use sch).

(** * Properties *)

(** ** Existence check of PUT and DELETE *)

Lemma select_device_id_none (device_id : Z) (db : DB) :
  (forall d, In d (tbl_devices db) -> devices.id d <> device_id) ->
  select_device_id device_id db = [].
Proof.
  unfold select_device_id. intros H.
  induction (tbl_devices db) as [|d l IH]; simpl; [reflexivity|].
  destruct (Z.eqb_spec (devices.id d) device_id) as [E|E].
  - exfalso. apply (H d); [now left | exact E].
  - apply IH. intros d' Hd'. apply H. now right.
Qed.

Lemma select_device_id_some (device_id : Z) (db : DB) :
  (exists d, In d (tbl_devices db) /\ devices.id d = device_id) ->
  exists i rest, select_device_id device_id db = i :: rest.
Proof.
  unfold select_device_id. intros [d [Hin Hid]].
  induction (tbl_devices db) as [|d' l IH]; simpl; [contradiction|].
  destruct (Z.eqb_spec (devices.id d') device_id) as [E|E].
  - simpl. eauto.
  - destruct Hin as [->|Hin]; [contradiction|]. now apply IH.
Qed.

(** Every PUT on a device that exists stops at [device.is_LoRa]: the model
    has no such attribute, so the handler raises [AttributeError] after the
    existence check, with nothing written and the connection still open. *)
Lemma update_device_existing (sch : Schema) (db : DB) (device_id : Z)
    (device : DeviceCreate) :
  (exists d, In d (tbl_devices db) /\ devices.id d = device_id) ->
  run (update_device sch device_id device) db
  = (Raise (AttributeError "'DeviceCreate' object has no attribute 'is_LoRa'"),
     get_db_connection db).
Proof.
  intros H. destruct (select_device_id_some device_id db H) as [i [rest E]].
  unfold run, update_device, bind, execute. simpl. rewrite E. simpl.
  destruct (ip_address device); reflexivity.
Qed.

(** C6. For a device_id with no row in [devices], PUT /devices/{device_id}
    and DELETE /devices/{device_id} both raise HTTP 404 with detail
    "Device not found"; the database is left as it was and cursor and
    connection are closed. *)
Theorem update_delete_missing_device_404 (sch : Schema) (db : DB)
    (device_id : Z) (device : DeviceCreate) :
  (forall d, In d (tbl_devices db) -> devices.id d <> device_id) ->
  run (update_device sch device_id device) db
  = (Raise (HTTPException 404 "Device not found"), mkSession db db true true)
  /\ run (delete_device sch device_id) db
     = (Raise (HTTPException 404 "Device not found"), mkSession db db true true).
Proof.
  intros H. pose proof (select_device_id_none device_id db H) as E.
  unfold run, update_device, delete_device, bind, execute. simpl.
  rewrite E. simpl. split; reflexivity.
Qed.

Lemma update_delete_missing_device_404_witness :
  (forall d, In d (tbl_devices sample_db) -> devices.id d <> 99)
  /\ run (update_device sample_schema 99 blank_body) sample_db
     = (Raise (HTTPException 404 "Device not found"),
        mkSession sample_db sample_db true true)
  /\ run (delete_device sample_schema 99) sample_db
     = (Raise (HTTPException 404 "Device not found"),
        mkSession sample_db sample_db true true).
Proof.
  assert (H : forall d, In d (tbl_devices sample_db) -> devices.id d <> 99).
  { simpl. intros d [<-|[<-|[<-|[]]]]; simpl; lia. }
  split; [exact H|].
  exact (update_delete_missing_device_404 sample_schema sample_db 99 blank_body H).
Defined.

(** C2. PUT /devices/1 on an existing device, with a body whose fields are
    all absent or falsy, does not answer 400 "No fields to update": the
    handler raises [AttributeError] at [device.is_LoRa].  The stored row is
    unchanged, and the connection stays open. *)
Theorem update_device_no_fields_attribute_error :
  run (update_device sample_schema 1 blank_body) sample_db
  = (Raise (AttributeError "'DeviceCreate' object has no attribute 'is_LoRa'"),
     mkSession sample_db sample_db false false)
  /\ fst (run (update_device sample_schema 1 blank_body) sample_db)
     <> Raise (HTTPException 400 "No fields to update").
Proof.
  assert (E : run (update_device sample_schema 1 blank_body) sample_db
              = (Raise (AttributeError
                          "'DeviceCreate' object has no attribute 'is_LoRa'"),
                 get_db_connection sample_db)).
  { apply update_device_existing. eexists. split; [left; reflexivity|reflexivity]. }
  split; [exact E|]. rewrite E. simpl. discriminate.
Qed.

(** ** Release of the connection *)

(** C3. GET /check/{system_id} and GET /time close the connection when they
    return, but leave it open whenever they raise: the 404 path of
    /check/{system_id} and the empty-history path of /time both end with the
    connection not closed, and both paths are taken on the empty database. *)
Theorem connection_left_open_on_raise (now : timestamp) (system_id : Z) (db : DB) :
  (match run (get_device_status_check_system now system_id) db with
   | (Return _, s) => conn_closed s = true
   | (Raise _, s) => conn_closed s = false
   end)
  /\ (match run get_update_time db with
      | (Return _, s) => conn_closed s = true
      | (Raise _, s) => conn_closed s = false
      end)
  /\ run (get_device_status_check_system now system_id) empty_db
     = (Raise (HTTPException 404
                 ("System with ID " ++ str_of_int system_id ++ " not found")%string),
        mkSession empty_db empty_db false false)
  /\ run get_update_time empty_db
     = (Raise (TypeError "'NoneType' object is not subscriptable"),
        mkSession empty_db empty_db false false).
Proof.
  repeat split.
  - unfold run, get_device_status_check_system, bind, execute. simpl.
    destruct (map systems.description _); reflexivity.
  - unfold run, get_update_time, bind, execute. simpl.
    destruct (order_by _ _); reflexivity.
Qed.

(** ** GET /time on an empty history *)

(** C9. With an empty [device_status_history] table, GET /time neither
    returns a response nor raises an HTTP error: subscripting the [None]
    that [fetchone()] gives raises [TypeError], which nothing handles (and
    the connection is still open). *)
Theorem get_update_time_empty_history (db : DB) :
  tbl_device_status_history db = [] ->
  run get_update_time db
  = (Raise (TypeError "'NoneType' object is not subscriptable"),
     get_db_connection db)
  /\ (forall t s', run get_update_time db <> (Return t, s'))
  /\ (forall code detail s',
         run get_update_time db <> (Raise (HTTPException code detail), s')).
Proof.
  intros H.
  assert (E : run get_update_time db
              = (Raise (TypeError "'NoneType' object is not subscriptable"),
                 get_db_connection db)).
  { unfold run, get_update_time, bind, execute. simpl. rewrite H. reflexivity. }
  split; [exact E|].
  split; intros; rewrite E; discriminate.
Qed.

Lemma get_update_time_empty_history_witness :
  run get_update_time empty_db
  = (Raise (TypeError "'NoneType' object is not subscriptable"),
     get_db_connection empty_db).
Proof.
  exact (proj1 (get_update_time_empty_history empty_db eq_refl)).
Defined.

(** ** Where [system_name] comes from *)

(** C10. The "system_name" of every row of GET /devices/ is the
    [description] column of the joined [systems] row (not its [name]), and
    the "system_name" of GET /check/{system_id} is the [description] of the
    [systems] row the request selects. *)
Theorem system_name_is_description (now : timestamp) (system_id : Z) (db : DB) :
  (exists r,
      run get_devices db = (Return r, mkSession db db true true)
      /\ map device_entry.system_name (devices_response.devices r)
         = map (fun ds => systems.description (snd ds)) (devices_systems db))
  /\ (match find (fun s => systems.id s =? system_id) (tbl_systems db) with
      | Some s =>
          exists r,
            run (get_device_status_check_system now system_id) db
            = (Return r, mkSession db db true true)
            /\ check_system_response.system_name r = systems.description s
      | None =>
          exists e,
            fst (run (get_device_status_check_system now system_id) db) = Raise e
      end).
Proof.
  split.
  - eexists. split; [reflexivity|]. simpl.
    rewrite map_map. apply map_ext. intros [d s]. reflexivity.
  - unfold run, get_device_status_check_system, bind, execute. simpl.
    induction (tbl_systems db) as [|s l IH]; simpl.
    + eexists. reflexivity.
    + destruct (systems.id s =? system_id); simpl.
      * eexists. split; reflexivity.
      * exact IH.
Qed.

(** ** Creating a device *)

Lemma lstrip_all_space (s : string) : all_space s = true -> lstrip s = "".
Proof.
  induction s as [|c s IH]; simpl; [reflexivity|].
  intros H. apply andb_true_iff in H. destruct H as [Hc Hs].
  rewrite Hc. now apply IH.
Qed.

Lemma strip_all_space (s : string) : all_space s = true -> strip s = "".
Proof.
  intros H. unfold strip. now rewrite (lstrip_all_space s H).
Qed.

(** Whatever the body, a POST that returns at all returns the generated id
    with the fixed message, with the connection closed. *)
Lemma add_device_return (sch : Schema) (db : DB) (device : DeviceCreate)
    (r : created.t) (s' : Session) :
  run (add_device sch device) db = (Return r, s') ->
  r = created.mk (next_device_id sch db) "Device added successfully"
  /\ conn_closed s' = true.
Proof.
  unfold run, add_device, bind, try_except_finally, execute_write, insert_device.
  simpl.
  destruct (insert_violation sch db _); simpl; intros H; inversion H; subst.
  split; reflexivity.
Qed.

(** C7. POST /devices/ with an [ip_address] that is empty or made of
    whitespace only stores the row with [ip_address] NULL: when the database
    accepts the row, the row committed has no address, and the response is
    the generated id with the message "Device added successfully".  Every
    POST that returns, whatever its body, returns that id and message. *)
Theorem add_device_blank_ip_stored_null (sch : Schema) (db : DB)
    (device : DeviceCreate) (s : string) :
  ip_address device = Some s ->
  all_space s = true ->
  insert_violation sch db
    (devices.mk (next_device_id sch db) (system_id device) (device_name device)
                None (facility_name device) (port device) (is_lora device)
                (default_is_use sch)) = None ->
  (let stored :=
     set_devices
       (tbl_devices db
        ++ [devices.mk (next_device_id sch db) (system_id device)
                       (device_name device) None (facility_name device)
                       (port device) (is_lora device) (default_is_use sch)])%list
       db in
   run (add_device sch device) db
   = (Return (created.mk (next_device_id sch db) "Device added successfully"),
      mkSession stored stored true true))
  /\ (forall device' r s',
         run (add_device sch device') db = (Return r, s') ->
         r = created.mk (next_device_id sch db) "Device added successfully").
Proof.
  intros Hip Hblank Hok. split.
  - assert (E : (if truthy (PyStr s) && truthy (PyStr (strip s))
                 then Some s else None) = None).
    { rewrite (strip_all_space s Hblank). simpl. now rewrite andb_false_r. }
    unfold run, add_device. rewrite Hip, E.
    unfold bind, try_except_finally, execute_write, insert_device. simpl.
    rewrite Hok. reflexivity.
  - intros device' r s' H. now apply add_device_return in H.
Qed.

Lemma add_device_blank_ip_stored_null_witness :
  run (add_device sample_schema blank_ip_body) sample_db
  = (Return (created.mk 4 "Device added successfully"),
     let stored :=
       set_devices
         (tbl_devices sample_db
          ++ [devices.mk 4 1 "Gate-03" None None (Some 22) false true])%list
         sample_db in
     mkSession stored stored true true).
Proof.
  exact (proj1 (add_device_blank_ip_stored_null
                  sample_schema sample_db blank_ip_body "   "
                  eq_refl eq_refl eq_refl)).
Defined.

(** ** LoRa devices in the status endpoints *)

Lemma Forall2_map_self {A B} (R : B -> A -> Prop) (f : A -> B) (l : list A) :
  (forall a, R (f a) a) -> Forall2 R (map f l) l.
Proof.
  intros H. induction l; simpl; constructor; auto.
Qed.

Lemma Forall_map_all {A B} (P : B -> Prop) (f : A -> B) (l : list A) :
  (forall a, P (f a)) -> Forall P (map f l).
Proof.
  intros H. induction l; simpl; constructor; auto.
Qed.

(** C1, as the code has it.  GET /last and GET /last/{system_id} report
    every joined device row with its stored [is_lora] flag, and a row whose
    flag is true has null [ip_address], [ping_status] and [ssh_status]
    whatever is stored.  GET /ip and the two device lists of
    GET /check/{system_id} report the stored address and the stored status
    columns as they are, for LoRa devices too. *)
Theorem lora_fields_by_endpoint (now : timestamp) (system_id : Z) (db : DB) :
  (exists r,
      run get_all_devices_status db = (Return r, mkSession db db true true)
      /\ map last_entry.is_lora (last_response.devices r)
         = map (fun j => devices.is_lora (fst (fst j))) (devices_systems_status db)
      /\ Forall (fun e => last_entry.is_lora e = true ->
                          last_entry.ip_address e = None
                          /\ last_entry.ping_status e = None
                          /\ last_entry.ssh_status e = None)
                (last_response.devices r))
  /\ (exists rows,
         run (get_latest_device_status system_id) db
         = (Return rows, mkSession db db true true)
         /\ map last_row.is_lora rows
            = map (fun j => devices.is_lora (fst (fst j)))
                  (filter (fun j => devices.system_id (fst (fst j)) =? system_id)
                          (devices_systems_status db))
         /\ Forall (fun e => last_row.is_lora e = true ->
                             last_row.ip_address e = None
                             /\ last_row.ping_status e = None
                             /\ last_row.ssh_status e = None)
                   rows)
  /\ (exists r,
         run get_ip_devices_status db = (Return r, mkSession db db true true)
         /\ Forall2 (fun e j =>
                       ip_entry.ip e = devices.ip_address (fst (fst j))
                       /\ ip_entry.ping_status e
                          = col (snd j) device_status.ping_status
                       /\ ip_entry.ssh_status e
                          = col (snd j) device_status.ssh_status)
                    (ip_response.devices r)
                    (filter (fun j => match devices.ip_address (fst (fst j)) with
                                      | Some _ => true
                                      | None => false
                                      end)
                            (devices_systems_status db)))
  /\ (forall r s',
         run (get_device_status_check_system now system_id) db = (Return r, s') ->
         let stored (e : check_row.t)
                    (j : devices.row * option device_status.row) :=
           check_row.is_lora e = devices.is_lora (fst j)
           /\ check_row.ip_address e = devices.ip_address (fst j)
           /\ check_row.ping_status e = col (snd j) device_status.ping_status
           /\ check_row.ssh_status e = col (snd j) device_status.ssh_status in
         Forall2 stored (check_system_response.inactive_device_list r)
                 (system_devices_where (inactive_cond now) system_id db)
         /\ Forall2 stored (check_system_response.active_device_list r)
                    (system_devices_where (active_cond now) system_id db)).
Proof.
  repeat apply conj.
  - eexists. split; [reflexivity|]. simpl. split.
    + rewrite !map_map. apply map_ext. intros [[d s] st]. reflexivity.
    + rewrite map_map. apply Forall_map_all. intros [[d s] st]. simpl.
      intros ->. auto.
  - eexists. split; [reflexivity|]. split.
    + rewrite !map_map. apply map_ext. intros [[d s] st].
      unfold null_lora. simpl. destruct (devices.is_lora d); reflexivity.
    + rewrite map_map. apply Forall_map_all. intros [[d s] st].
      unfold null_lora. simpl. destruct (devices.is_lora d) eqn:E; simpl.
      * auto.
      * intros H. congruence.
  - eexists. split; [reflexivity|]. simpl.
    rewrite (filter_ext
               (fun j : devices.row * systems.row * option device_status.row =>
                  match devices.ip_address (fst (fst j)) with
                  | Some _ => true
                  | None => false
                  end)
               (fun r => holds (is_not_null (devices.ip_address (fst (fst r)))))).
    + apply Forall2_map_self. intros [[d s] st]. simpl. auto.
    + intros [[d s] st]. simpl. destruct (devices.ip_address d); reflexivity.
  - intros r s'.
    unfold run, get_device_status_check_system, bind, execute. simpl.
    destruct (map systems.description _); simpl; [discriminate|].
    intros H. inversion H; subst. simpl. split.
    + apply Forall2_map_self. intros [d st]. simpl. auto.
    + apply Forall2_map_self. intros [d st]. simpl. auto.
Qed.

(** C1, as stated, fails.  In the sample data device "Lora-01" has
    [is_lora = true], a stored address and a status row; GET /ip lists it
    with the stored address and both status flags, and GET /check/1 lists it
    among the inactive devices with the same stored values. *)
Lemma lora_fields_reported_unchanged :
  In (devices.mk 2 1 "Lora-01" (Some "10.0.0.9") (Some "roof") None true true)
     (tbl_devices sample_db)
  /\ run get_ip_devices_status sample_db
     = (Return (ip_response.mk 2
                  [ip_entry.mk "Gate-01" None "plant-a" "Plant A"
                               (Some "10.0.0.5") (Some true) (Some true);
                   ip_entry.mk "Lora-01" (Some "roof") "plant-a" "Plant A"
                               (Some "10.0.0.9") (Some true) (Some false)]),
        mkSession sample_db sample_db true true)
  /\ match run (get_device_status_check_system sample_now 1) sample_db with
     | (Return r, _) =>
         In (check_row.mk 2 "Lora-01" (Some "roof") (Some "10.0.0.9") None
                          true (Some (sample_now - 5 * day - second))
                          (Some true) (Some false))
            (check_system_response.inactive_device_list r)
     | (Raise _, _) => False
     end.
Proof.
  split; [right; left; reflexivity|].
  split; [reflexivity|].
  vm_compute. left. reflexivity.
Qed.

(** ** ORDER BY *)

Section OrderBy.

Context {A : Type} (key : A -> Z).

Lemma insert_by_perm (a : A) (l : list A) :
  Permutation (insert_by key a l) (a :: l).
Proof.
  induction l as [|b l IH]; simpl; [apply Permutation_refl|].
  destruct (key a <? key b).
  - apply Permutation_refl.
  - eapply perm_trans; [apply perm_skip, IH | apply perm_swap].
Qed.

Lemma order_by_perm (l : list A) : Permutation (order_by key l) l.
Proof.
  induction l as [|a l IH]; simpl; [constructor|].
  eapply perm_trans; [apply insert_by_perm | apply perm_skip, IH].
Qed.

Lemma insert_by_hd (a b : A) (l : list A) :
  le_by key b a -> HdRel (le_by key) b l -> HdRel (le_by key) b (insert_by key a l).
Proof.
  intros Hba Hl. destruct l as [|c l]; simpl; [now constructor|].
  destruct (key a <? key c); constructor; [exact Hba|].
  now inversion Hl.
Qed.

Lemma insert_by_sorted (a : A) (l : list A) :
  Sorted (le_by key) l -> Sorted (le_by key) (insert_by key a l).
Proof.
  induction 1 as [|b l Hs IH Hhd]; simpl; [repeat constructor|].
  destruct (Z.ltb_spec (key a) (key b)) as [Hlt|Hge].
  - constructor; [now constructor|]. constructor. unfold le_by. lia.
  - constructor; [exact IH|]. apply insert_by_hd; [exact Hge | exact Hhd].
Qed.

Lemma order_by_sorted (l : list A) :
  StronglySorted (le_by key) (order_by key l).
Proof.
  apply Sorted_StronglySorted.
  - intros x y z Hxy Hyz. unfold le_by in *. lia.
  - induction l as [|a l IH]; simpl; [constructor|]. now apply insert_by_sorted.
Qed.

Lemma order_by_Forall (P : A -> Prop) (l : list A) :
  Forall P l -> Forall P (order_by key l).
Proof.
  intros H. apply Forall_forall. intros x Hx.
  rewrite Forall_forall in H. apply H.
  eapply Permutation_in; [apply order_by_perm | exact Hx].
Qed.

End OrderBy.

(** ** The history window *)

Lemma strftime_seconds_bounds (t : timestamp) :
  strftime_seconds t <= t < strftime_seconds t + second
  /\ strftime_seconds t mod second = 0.
Proof.
  unfold strftime_seconds, second.
  pose proof (Z.mod_pos_bound t 1000000 ltac:(lia)) as Hb.
  split; [lia|].
  rewrite Zminus_mod, Zmod_mod, Z.sub_diag. reflexivity.
Qed.

(** C8, as the code has it.  GET /device-history returns the
    [device_status_history] rows whose [checked_at] is not before the cutoff,
    each exactly once, in ascending [checked_at] order, with their number as
    "total".  The cutoff is [now - 3 days] with the part below one second
    dropped, because it reaches the database as text printed by
    [strftime("%Y-%m-%d %H:%M:%S")]: it is a whole second, at most
    [now - 3 days] and less than one second before it. *)
Theorem get_device_history_window (now : timestamp) (db : DB) :
  let cutoff := strftime_seconds (now - 3 * day) in
  exists r,
    run (get_device_history now) db = (Return r, mkSession db db true true)
    /\ Permutation
         (history_response.history r)
         (filter (fun h => cutoff <=? device_status_history.checked_at h)
                 (tbl_device_status_history db))
    /\ StronglySorted (le_by device_status_history.checked_at)
                      (history_response.history r)
    /\ history_response.total r
       = Z.of_nat (List.length (history_response.history r))
    /\ cutoff <= now - 3 * day < cutoff + second
    /\ cutoff mod second = 0.
Proof.
  intros cutoff. eexists. split; [reflexivity|]. simpl.
  repeat apply conj.
  - rewrite (filter_ext
               (fun h => cutoff <=? device_status_history.checked_at h)
               (fun h => holds (sql_ge (Some (device_status_history.checked_at h))
                                       (Some cutoff)))).
    + apply order_by_perm.
    + intros h. simpl. destruct (cutoff <=? _); reflexivity.
  - apply order_by_sorted.
  - reflexivity.
  - apply strftime_seconds_bounds.
  - apply strftime_seconds_bounds.
  - apply strftime_seconds_bounds.
Qed.

(** C8, as stated, fails.  With [now] half a second past a whole second,
    the row checked 0.3 s before [now - 3 days] is returned although its
    [checked_at] is less than [now - 3 days]. *)
Lemma device_history_returns_older_row :
  match run (get_device_history sample_now) sample_db with
  | (Return r, _) =>
      In (device_status_history.mk (7 * day + 200000) 3 1 2)
         (history_response.history r)
      /\ 7 * day + 200000 < sample_now - 3 * day
  | (Raise _, _) => False
  end.
Proof.
  vm_compute. split; [left; reflexivity | reflexivity].
Qed.

(** ** Joins against [device_status] *)

Lemma in_cat_somes {A} (i : A) (l : list (option A)) :
  In i (cat_somes l) <-> In (Some i) l.
Proof.
  induction l as [|[a|] l IH]; simpl.
  - tauto.
  - rewrite IH. split; intros [H|H]; auto; left; congruence.
  - rewrite IH. split; [auto|]. intros [H|H]; [discriminate | exact H].
Qed.

Lemma in_cat_somes_map {A B} (e : A -> option B) (i : B) (rows : list A) :
  In i (cat_somes (map e rows)) <-> exists r, In r rows /\ e r = Some i.
Proof.
  rewrite in_cat_somes, in_map_iff.
  split; intros [r [H1 H2]]; exists r; split; assumption.
Qed.

Lemma left_join_in_some {A B} (on : A -> B -> bool) (l : list A) (r : list B)
    (a : A) (b : B) :
  In (a, Some b) (left_join on l r) <-> In a l /\ In b r /\ on a b = true.
Proof.
  unfold left_join. rewrite in_flat_map. split.
  - intros [a' [Ha' Hin]].
    destruct (filter (on a') r) as [|m ms] eqn:E.
    + destruct Hin as [Hin|[]]. discriminate.
    + rewrite <- E in Hin. apply in_map_iff in Hin.
      destruct Hin as [b' [Heq Hb']]. inversion Heq; subst.
      apply filter_In in Hb'. tauto.
  - intros [Ha [Hb Hon]]. exists a. split; [exact Ha|].
    assert (Hf : In b (filter (on a) r)) by (apply filter_In; tauto).
    destruct (filter (on a) r) as [|m ms] eqn:E; [contradiction|].
    rewrite <- E. apply in_map_iff. exists b. rewrite E. tauto.
Qed.

Lemma left_join_in_fst {A B} (on : A -> B -> bool) (l : list A) (r : list B)
    (a : A) (ob : option B) :
  In (a, ob) (left_join on l r) -> In a l.
Proof.
  unfold left_join. rewrite in_flat_map. intros [a' [Ha' Hin]].
  destruct (filter (on a') r) as [|m ms].
  - destruct Hin as [Hin|[]]. inversion Hin; subst. exact Ha'.
  - apply in_map_iff in Hin. destruct Hin as [b [Heq _]].
    inversion Heq; subst. exact Ha'.
Qed.

(** With one status row per device, selecting the status rows of a device
    gives the row [status_of] finds, or nothing. *)
Lemma filter_status_of (db : DB) (i : Z) :
  one_status_per_device db ->
  filter (fun st => device_status.device_id st =? i) (tbl_device_status db)
  = match status_of db i with Some st => [st] | None => [] end.
Proof.
  unfold one_status_per_device, status_of.
  induction (tbl_device_status db) as [|st l IH]; simpl; [reflexivity|].
  intros Hnd. inversion Hnd as [|x xs Hnotin Hnd']; subst.
  destruct (Z.eqb_spec (device_status.device_id st) i) as [E|E].
  - f_equal. specialize (IH Hnd').
    destruct (find _ l) as [st'|] eqn:F; [|exact IH].
    exfalso. apply find_some in F. destruct F as [Hin Hid].
    apply Z.eqb_eq in Hid. apply Hnotin. rewrite E, <- Hid.
    now apply in_map.
  - now apply IH.
Qed.

(** A LEFT JOIN onto [device_status] by device id then pairs every left row
    with the status row of its device. *)
Lemma left_join_status {A} (on : A -> device_status.row -> bool)
    (g : A -> option Z) (l : list A) (db : DB) :
  one_status_per_device db ->
  (forall a st, on a st = match g a with
                          | Some i => device_status.device_id st =? i
                          | None => false
                          end) ->
  left_join on l (tbl_device_status db)
  = map (fun a => (a, match g a with
                      | Some i => status_of db i
                      | None => None
                      end)) l.
Proof.
  intros Hone Hon. unfold left_join.
  induction l as [|a l IH]; [reflexivity|].
  cbn [flat_map]. rewrite map_cons, IH. clear IH.
  replace (filter (on a) (tbl_device_status db))
    with (match g a with
          | Some i => filter (fun st => device_status.device_id st =? i)
                             (tbl_device_status db)
          | None => []
          end).
  - destruct (g a) as [i|]; [|reflexivity].
    rewrite (filter_status_of db i Hone).
    destruct (status_of db i); reflexivity.
  - destruct (g a) as [i|] eqn:G.
    + apply filter_ext. intros st. now rewrite Hon, G.
    + induction (tbl_device_status db) as [|st sts IH]; simpl; [reflexivity|].
      rewrite Hon, G. exact IH.
Qed.

Lemma devices_status_unique (db : DB) :
  one_status_per_device db ->
  devices_status db
  = map (fun d => (d, status_of db (devices.id d))) (tbl_devices db).
Proof.
  intros Hone. unfold devices_status.
  apply (left_join_status _ (fun d => Some (devices.id d)) _ db Hone).
  reflexivity.
Qed.

Lemma systems_devices_status_unique (db : DB) :
  one_status_per_device db ->
  systems_devices_status db
  = map (fun sd : systems.row * option devices.row =>
           (sd, match dev_id (snd sd) with
                | Some i => status_of db i
                | None => None
                end))
        (left_join (fun s d => systems.id s =? devices.system_id d)
                   (tbl_systems db) (tbl_devices db)).
Proof.
  intros Hone. unfold systems_devices_status.
  apply (left_join_status _ (fun sd => dev_id (snd sd)) _ db Hone).
  intros [s od] st. simpl. destruct (dev_id od) as [i|]; simpl; [|reflexivity].
  rewrite Z.eqb_sym. destruct (_ =? _); reflexivity.
Qed.

(** ** Counting distinct devices by class *)

Lemma filter_length_split {A} (p : A -> bool) (l : list A) :
  (List.length (filter p l) + List.length (filter (fun x => negb (p x)) l))%nat
  = List.length l.
Proof.
  induction l as [|a l IH]; simpl; [reflexivity|].
  destruct (p a); simpl; lia.
Qed.

Lemma distinct_case_perm {A} (p : Z -> bool) (idf : A -> option Z)
    (c : A -> option bool) (rows : list A) :
  (forall r i, In r rows -> idf r = Some i -> holds (c r) = p i) ->
  Permutation
    (nodup Z.eq_dec (cat_somes (map (fun r => case_when (c r) (idf r)) rows)))
    (filter p (nodup Z.eq_dec (cat_somes (map idf rows)))).
Proof.
  intros H. apply NoDup_Permutation.
  - apply NoDup_nodup.
  - apply NoDup_filter, NoDup_nodup.
  - intros i. rewrite nodup_In, filter_In, nodup_In, !in_cat_somes_map.
    unfold case_when. split.
    + intros [r [Hin Hr]]. destruct (holds (c r)) eqn:E; [|discriminate].
      split; [eauto|]. now rewrite <- (H r i Hin Hr).
    + intros [[r [Hin Hr]] Hp]. exists r. split; [exact Hin|].
      now rewrite (H r i Hin Hr), Hp.
Qed.

Lemma count_distinct_split {A} (p : Z -> bool) (idf : A -> option Z)
    (ca ci : A -> option bool) (rows : list A) :
  (forall r i, In r rows -> idf r = Some i ->
               holds (ca r) = p i /\ holds (ci r) = negb (p i)) ->
  count_distinct idf rows
  = count_distinct (fun r => case_when (ca r) (idf r)) rows
    + count_distinct (fun r => case_when (ci r) (idf r)) rows.
Proof.
  intros H. unfold count_distinct.
  rewrite (Permutation_length (distinct_case_perm p idf ca rows
             (fun r i Hin Hr => proj1 (H r i Hin Hr)))).
  rewrite (Permutation_length (distinct_case_perm (fun i => negb (p i)) idf ci rows
             (fun r i Hin Hr => proj2 (H r i Hin Hr)))).
  rewrite <- Nat2Z.inj_add, filter_length_split. reflexivity.
Qed.

(** The two CASE conditions of the per-system query are complementary on
    every value of [last_data_time], NULL included. *)
Lemma stale_conditions_complementary (now : timestamp) (t : option timestamp) :
  holds (sql_or (is_null t) (sql_lt t (stale_before now)))
  = negb (holds (sql_ge t (stale_before now))).
Proof.
  destruct t as [t|]; [|reflexivity].
  unfold stale_before. cbn [holds sql_or sql_lt sql_ge is_null].
  destruct (Z.leb_spec (now - 5 * day) t), (Z.ltb_spec t (now - 5 * day));
    try reflexivity; lia.
Qed.

Lemma aggregate_system_balance (now : timestamp) (db : DB)
    (g : systems.row
         * list (systems.row * option devices.row * option device_status.row)) :
  one_status_per_device db ->
  (forall r, In r (snd g) -> In r (systems_devices_status db)) ->
  system_status.inactive_devices (aggregate_system now g)
  = system_status.system_total_devices (aggregate_system now g)
    - system_status.active_devices (aggregate_system now g).
Proof.
  intros Hone Hsub. destruct g as [k rows]. unfold aggregate_system.
  cbn [system_status.inactive_devices system_status.system_total_devices
       system_status.active_devices snd] in *.
  rewrite (count_distinct_split
             (fun i => holds (sql_ge (ldt (status_of db i)) (stale_before now)))
             (fun r => dev_id (snd (fst r)))
             (fun r => sql_ge (ldt (snd r)) (stale_before now))
             (fun r => sql_or (is_null (ldt (snd r)))
                              (sql_lt (ldt (snd r)) (stale_before now)))
             rows).
  - lia.
  - intros r i Hin Hid. apply Hsub in Hin.
    rewrite (systems_devices_status_unique db Hone) in Hin.
    apply in_map_iff in Hin. destruct Hin as [sd [<- _]]. simpl in *.
    rewrite Hid. split; [reflexivity | apply stale_conditions_complementary].
Qed.

(** ** GET /check *)

(** C4. With one [device_status] row per device, as the schema has it, the
    GET /check response satisfies
    [inactive_devices = total_devices - active_devices] for the fleet, and
    every entry of its "systems" list satisfies
    [inactive_devices = system_total_devices - active_devices]. *)
Theorem check_inactive_is_total_minus_active (now : timestamp) (db : DB) :
  one_status_per_device db ->
  exists r,
    run (get_device_status_check now) db = (Return r, mkSession db db true true)
    /\ check_response.inactive_devices r
       = check_response.total_devices r - check_response.active_devices r
    /\ Forall (fun e => system_status.inactive_devices e
                        = system_status.system_total_devices e
                          - system_status.active_devices e)
              (check_response.systems r).
Proof.
  intros Hone.
  set (active := count_distinct (fun r => Some (devices.id (fst r)))
                   (filter (fun r => holds (active_cond now (snd r)))
                           (devices_status db))).
  exists (check_response.mk (count (tbl_devices db)) active
                            (count (tbl_devices db) - active)
                            (select_system_status now db)).
  split; [reflexivity|].
  cbn [check_response.inactive_devices check_response.total_devices
       check_response.active_devices check_response.systems].
  split; [reflexivity|].
  unfold select_system_status. apply order_by_Forall.
  apply Forall_forall. intros e He. apply in_map_iff in He.
  destruct He as [g [<- Hg]].
  apply (aggregate_system_balance now db g Hone).
  unfold group_by_system in Hg. apply in_map_iff in Hg.
  destruct Hg as [k [<- _]]. simpl. intros r Hr.
  apply filter_In in Hr. tauto.
Qed.

Lemma sample_one_status_per_device : one_status_per_device sample_db.
Proof.
  unfold one_status_per_device. simpl.
  repeat constructor; simpl; intuition discriminate.
Qed.

Lemma check_inactive_is_total_minus_active_witness :
  one_status_per_device sample_db
  /\ exists r,
      run (get_device_status_check sample_now) sample_db
      = (Return r, mkSession sample_db sample_db true true)
      /\ check_response.inactive_devices r
         = check_response.total_devices r - check_response.active_devices r
      /\ Forall (fun e => system_status.inactive_devices e
                          = system_status.system_total_devices e
                            - system_status.active_devices e)
                (check_response.systems r).
Proof.
  split; [exact sample_one_status_per_device|].
  exact (check_inactive_is_total_minus_active sample_now sample_db
           sample_one_status_per_device).
Defined.

(** The hypothesis of C4 is needed for the per-system part: were a device
    to have two status rows, one fresh and one stale, the per-system query
    would count it both as active and as inactive. *)
Lemma balance_needs_one_status_per_device :
  ~ one_status_per_device two_status_db
  /\ select_system_status sample_now two_status_db
     = [system_status.mk 1 "plant-a" "Plant A" 1 1 1].
Proof.
  split.
  - unfold one_status_per_device. simpl. intros H.
    inversion H as [|x l Hnotin _]; subst. apply Hnotin. now left.
  - reflexivity.
Qed.

(** ** The five-day classification *)

Lemma active_cond_spec (now : timestamp) (st : option device_status.row) :
  holds (active_cond now st) = spec_active now (ldt st).
Proof.
  unfold active_cond, spec_active, stale_before.
  destruct (ldt st) as [t|]; [|reflexivity].
  cbn [holds sql_and sql_ge is_not_null]. destruct (_ <=? _); reflexivity.
Qed.

Lemma case_ge_spec (now : timestamp) (t : option timestamp) :
  holds (sql_ge t (stale_before now)) = spec_active now t.
Proof.
  unfold spec_active, stale_before. destruct t as [t|]; [|reflexivity].
  cbn [holds sql_ge]. destruct (_ <=? _); reflexivity.
Qed.

Lemma inactive_cond_spec (now : timestamp) (st : option device_status.row) :
  holds (inactive_cond now st) = negb (spec_active now (ldt st)).
Proof.
  unfold inactive_cond. now rewrite stale_conditions_complementary, case_ge_spec.
Qed.

Lemma holds_and_bool (b : bool) (c : option bool) :
  holds (sql_and (Some b) c) = b && holds c.
Proof.
  destruct b, c as [[|]|]; reflexivity.
Qed.

Lemma count_distinct_eq {A} (e : A -> option Z) (rows : list A) (l : list Z) :
  (forall i, (exists r, In r rows /\ e r = Some i) <-> In i l) ->
  count_distinct e rows = Z.of_nat (List.length (nodup Z.eq_dec l)).
Proof.
  intros H. unfold count_distinct. f_equal. apply Permutation_length.
  apply NoDup_Permutation; try apply NoDup_nodup.
  intros i. rewrite !nodup_In, in_cat_somes_map. apply H.
Qed.

(** With one status row per device, the per-system WHERE clauses of
    GET /check/{system_id} select device rows by [device_active]. *)
Lemma system_devices_where_active (now : timestamp) (system_id : Z) (db : DB) :
  one_status_per_device db ->
  system_devices_where (active_cond now) system_id db
  = map (fun d => (d, status_of db (devices.id d)))
        (filter (fun d => (devices.system_id d =? system_id)
                          && device_active now db d)
                (tbl_devices db)).
Proof.
  intros Hone. unfold system_devices_where.
  rewrite (devices_status_unique db Hone), filter_map_swap. f_equal.
  apply filter_ext. intros d. cbn [fst snd].
  now rewrite holds_and_bool, active_cond_spec.
Qed.

Lemma system_devices_where_inactive (now : timestamp) (system_id : Z) (db : DB) :
  one_status_per_device db ->
  system_devices_where (inactive_cond now) system_id db
  = map (fun d => (d, status_of db (devices.id d)))
        (filter (fun d => (devices.system_id d =? system_id)
                          && negb (device_active now db d))
                (tbl_devices db)).
Proof.
  intros Hone. unfold system_devices_where.
  rewrite (devices_status_unique db Hone), filter_map_swap. f_equal.
  apply filter_ext. intros d. cbn [fst snd].
  now rewrite holds_and_bool, inactive_cond_spec.
Qed.

Lemma filter_and_length_split {A} (p q : A -> bool) (l : list A) :
  Z.of_nat (List.length (filter p l))
  - Z.of_nat (List.length (filter (fun x => p x && q x) l))
  = Z.of_nat (List.length (filter (fun x => p x && negb (q x)) l)).
Proof.
  induction l as [|a l IH]; [reflexivity|].
  cbn [filter]. destruct (p a), (q a);
    cbn [andb negb List.length]; rewrite ?Nat2Z.inj_succ; lia.
Qed.

(** The fleet-wide count of GET /check is the number of distinct ids of the
    devices that are active. *)
Lemma select_active_devices_spec (now : timestamp) (db : DB) :
  one_status_per_device db ->
  select_active_devices now db
  = [Z.of_nat (List.length
                 (nodup Z.eq_dec
                        (map devices.id
                             (filter (device_active now db) (tbl_devices db)))))].
Proof.
  intros Hone. unfold select_active_devices. f_equal.
  apply count_distinct_eq. intros i.
  rewrite (devices_status_unique db Hone), filter_map_swap, in_map_iff.
  split.
  - intros [r [Hin Hr]]. apply in_map_iff in Hin.
    destruct Hin as [d [<- Hd]]. cbn [fst] in Hr. inversion Hr; subst.
    exists d. split; [reflexivity|].
    apply filter_In in Hd. apply filter_In. cbn [snd] in Hd.
    rewrite active_cond_spec in Hd. exact Hd.
  - intros [d [<- Hd]]. exists (d, status_of db (devices.id d)).
    split; [|reflexivity]. apply in_map_iff. exists d. split; [reflexivity|].
    apply filter_In in Hd. apply filter_In. cbn [snd].
    now rewrite active_cond_spec.
Qed.

(** A conditional distinct count of one GROUP BY group of GET /check: the
    number of distinct ids of the devices of that system whose last data
    time satisfies the condition. *)
Lemma group_count_spec (db : DB) (k : systems.row)
    (c : option timestamp -> option bool) (q : option timestamp -> bool) :
  (forall t, holds (c t) = q t) ->
  one_status_per_device db ->
  In k (tbl_systems db) ->
  count_distinct
    (fun r : systems.row * option devices.row * option device_status.row =>
       case_when (c (ldt (snd r))) (dev_id (snd (fst r))))
    (filter (fun r => if systems_row_eq_dec (fst (fst r)) k then true else false)
            (systems_devices_status db))
  = Z.of_nat
      (List.length
         (nodup Z.eq_dec
                (map devices.id
                     (filter (fun d => (devices.system_id d =? systems.id k)
                                       && q (ldt (status_of db (devices.id d))))
                             (tbl_devices db))))).
Proof.
  intros Hc Hone Hk. apply count_distinct_eq. intros i.
  rewrite (systems_devices_status_unique db Hone), in_map_iff. split.
  - intros [r [Hin Hr]]. apply filter_In in Hin. destruct Hin as [Hin Hkey].
    apply in_map_iff in Hin. destruct Hin as [[s od] [<- Hsd]].
    cbn [fst snd] in *. destruct (systems_row_eq_dec s k) as [->|]; [|discriminate].
    unfold case_when in Hr. destruct (holds _) eqn:Hh; [|discriminate].
    destruct od as [d|]; [|discriminate]. cbn [dev_id col] in *.
    inversion Hr; subst. exists d. split; [reflexivity|].
    apply left_join_in_some in Hsd. destruct Hsd as [_ [Hd Hon]].
    apply filter_In. split; [exact Hd|].
    rewrite Hc in Hh. rewrite Hh, andb_true_r.
    now rewrite Z.eqb_sym.
  - intros [d [<- Hd]]. apply filter_In in Hd. destruct Hd as [Hd Hq].
    apply andb_true_iff in Hq. destruct Hq as [Hsys Hq].
    exists ((k, Some d), status_of db (devices.id d)). split.
    + apply filter_In. cbn [fst]. split.
      * apply in_map_iff. exists (k, Some d). split; [reflexivity|].
        apply left_join_in_some. rewrite Z.eqb_sym. auto.
      * destruct (systems_row_eq_dec k k); [reflexivity | contradiction].
    + cbn [fst snd]. unfold case_when. now rewrite Hc, Hq.
Qed.

Lemma group_by_system_in (db : DB)
    (g : systems.row
         * list (systems.row * option devices.row * option device_status.row)) :
  In g (group_by_system (systems_devices_status db)) ->
  In (fst g) (tbl_systems db)
  /\ snd g = filter (fun r => if systems_row_eq_dec (fst (fst r)) (fst g)
                              then true else false)
                    (systems_devices_status db).
Proof.
  unfold group_by_system. intros H. apply in_map_iff in H.
  destruct H as [k [<- Hk]]. cbn [fst snd]. split; [|reflexivity].
  apply nodup_In, in_map_iff in Hk. destruct Hk as [[[s od] ost] [<- Hin]].
  cbn [fst]. unfold systems_devices_status in Hin.
  apply left_join_in_fst in Hin. now apply left_join_in_fst in Hin.
Qed.

(** GET /check/{system_id}, evaluated: 404 when no [systems] row has the
    id, otherwise the counts and lists of the first such row. *)
Lemma check_system_run (now : timestamp) (system_id : Z) (db : DB) :
  run (get_device_status_check_system now system_id) db
  = match find (fun s => systems.id s =? system_id) (tbl_systems db) with
    | Some s =>
        let total := count (filter (fun d => devices.system_id d =? system_id)
                                   (tbl_devices db)) in
        let active := count (system_devices_where (active_cond now) system_id db) in
        (Return (check_system_response.mk
                   system_id (systems.description s) total active (total - active)
                   (map select_check
                        (system_devices_where (inactive_cond now) system_id db))
                   (map select_check
                        (system_devices_where (active_cond now) system_id db))),
         mkSession db db true true)
    | None =>
        (Raise (HTTPException 404
                  ("System with ID " ++ str_of_int system_id ++ " not found")%string),
         get_db_connection db)
    end.
Proof.
  unfold run, get_device_status_check_system, bind, execute. simpl.
  induction (tbl_systems db) as [|s l IH]; simpl; [reflexivity|].
  destruct (systems.id s =? system_id); simpl; [reflexivity | exact IH].
Qed.

(** C5. The condition used by GET /check and GET /check/{system_id} holds
    exactly when [last_data_time] is present and not before [now - 5 days]:
    a value of [now - 5 days - 1 second] is inactive, [now - 4 days] is
    active.  With one status row per device, the fleet count of GET /check
    is the number of distinct active devices, each entry of its "systems"
    list counts the distinct active and the distinct inactive devices of
    that system, and GET /check/{system_id} counts and lists the active
    devices of the system as active and all its other devices as
    inactive. *)
Theorem active_classification (now : timestamp) (system_id : Z) (db : DB) :
  one_status_per_device db ->
  (forall st,
      (holds (active_cond now st) = true
       <-> exists t, ldt st = Some t /\ now - 5 * day <= t)
      /\ holds (inactive_cond now st) = negb (holds (active_cond now st))
      /\ (ldt st = Some (now - 5 * day - second) ->
          holds (active_cond now st) = false)
      /\ (ldt st = Some (now - 4 * day) -> holds (active_cond now st) = true))
  /\ (exists r,
         run (get_device_status_check now) db
         = (Return r, mkSession db db true true)
         /\ check_response.active_devices r
            = Z.of_nat
                (List.length
                   (nodup Z.eq_dec
                          (map devices.id
                               (filter (device_active now db) (tbl_devices db)))))
         /\ Forall
              (fun e =>
                 let of_system (d : devices.row) :=
                   devices.system_id d =? system_status.system_id e in
                 system_status.active_devices e
                 = Z.of_nat
                     (List.length
                        (nodup Z.eq_dec
                           (map devices.id
                              (filter (fun d => of_system d
                                                && device_active now db d)
                                      (tbl_devices db)))))
                 /\ system_status.inactive_devices e
                    = Z.of_nat
                        (List.length
                           (nodup Z.eq_dec
                              (map devices.id
                                 (filter (fun d => of_system d
                                                   && negb (device_active now db d))
                                         (tbl_devices db))))))
              (check_response.systems r))
  /\ (match find (fun s => systems.id s =? system_id) (tbl_systems db) with
      | Some _ =>
          let of_system (d : devices.row) :=
            devices.system_id d =? system_id in
          let status (d : devices.row) :=
            select_check (d, status_of db (devices.id d)) in
          let active :=
            filter (fun d => of_system d && device_active now db d)
                   (tbl_devices db) in
          let inactive :=
            filter (fun d => of_system d && negb (device_active now db d))
                   (tbl_devices db) in
          exists r,
            run (get_device_status_check_system now system_id) db
            = (Return r, mkSession db db true true)
            /\ check_system_response.active_devices r
               = Z.of_nat (List.length active)
            /\ check_system_response.inactive_devices r
               = Z.of_nat (List.length inactive)
            /\ check_system_response.active_device_list r = map status active
            /\ check_system_response.inactive_device_list r = map status inactive
      | None =>
          exists e,
            fst (run (get_device_status_check_system now system_id) db) = Raise e
      end).
Proof.
  intros Hone. repeat apply conj.
  - intros st. split; [|split; [|split]].
    + rewrite active_cond_spec. unfold spec_active.
      destruct (ldt st) as [t|]; split.
      * intros H. exists t. split; [reflexivity|]. now apply Z.leb_le.
      * intros [t' [E H]]. inversion E; subst. now apply Z.leb_le.
      * discriminate.
      * intros [t' [E _]]. discriminate.
    + now rewrite inactive_cond_spec, active_cond_spec.
    + intros E. rewrite active_cond_spec, E. cbn [spec_active].
      apply Z.leb_gt. unfold second. lia.
    + intros E. rewrite active_cond_spec, E. cbn [spec_active].
      apply Z.leb_le. unfold day, second. lia.
  - set (active := count_distinct (fun r => Some (devices.id (fst r)))
                     (filter (fun r => holds (active_cond now (snd r)))
                             (devices_status db))).
    exists (check_response.mk (count (tbl_devices db)) active
                              (count (tbl_devices db) - active)
                              (select_system_status now db)).
    split; [reflexivity|].
    cbn [check_response.active_devices check_response.systems]. split.
    + pose proof (select_active_devices_spec now db Hone) as H.
      unfold select_active_devices in H. fold active in H. now inversion H.
    + unfold select_system_status. apply order_by_Forall.
      apply Forall_forall. intros e He. apply in_map_iff in He.
      destruct He as [[k rows] [<- Hg]].
      apply group_by_system_in in Hg. cbn [fst snd] in Hg.
      destruct Hg as [Hk ->]. unfold aggregate_system.
      cbn [system_status.system_id system_status.active_devices
           system_status.inactive_devices]. split.
      * exact (group_count_spec db k
                 (fun t => sql_ge t (stale_before now)) (spec_active now)
                 (case_ge_spec now) Hone Hk).
      * exact (group_count_spec db k
                 (fun t => sql_or (is_null t) (sql_lt t (stale_before now)))
                 (fun t => negb (spec_active now t))
                 (fun t => eq_trans (stale_conditions_complementary now t)
                                    (f_equal negb (case_ge_spec now t)))
                 Hone Hk).
  - rewrite check_system_run.
    destruct (find _ (tbl_systems db)) as [s|]; [|eexists; reflexivity].
    cbv zeta. eexists. split; [reflexivity|].
    cbn [check_system_response.active_devices
         check_system_response.inactive_devices
         check_system_response.active_device_list
         check_system_response.inactive_device_list].
    rewrite (system_devices_where_active now system_id db Hone).
    rewrite (system_devices_where_inactive now system_id db Hone).
    unfold count. rewrite !length_map, !map_map. repeat apply conj.
    + reflexivity.
    + apply (filter_and_length_split
               (fun d => devices.system_id d =? system_id)
               (device_active now db)).
    + reflexivity.
    + reflexivity.
Qed.

Lemma active_classification_witness :
  one_status_per_device sample_db
  /\ exists r,
      run (get_device_status_check_system sample_now 1) sample_db
      = (Return r, mkSession sample_db sample_db true true)
      /\ check_system_response.active_devices r = 1
      /\ check_system_response.inactive_devices r = 2.
Proof.
  split; [exact sample_one_status_per_device|].
  destruct (proj2 (proj2 (active_classification sample_now 1 sample_db
                            sample_one_status_per_device)))
    as [r [Hrun [Ha [Hi _]]]].
  exists r. split; [exact Hrun|]. split; [exact Ha | exact Hi].
Defined.

(** * Further properties of the handlers *)

(** ** POST /devices/ *)

(** POST /devices/, evaluated: the database either accepts the row and the
    handler commits it and returns its id, or rejects it and the handler
    rolls back and raises 400 with the database's text. *)
Lemma add_device_run (sch : Schema) (db : DB) (device : DeviceCreate) :
  run (add_device sch device) db
  = match insert_violation sch db (new_device_row sch db device) with
    | None =>
        let stored :=
          set_devices (tbl_devices db ++ [new_device_row sch db device])%list db in
        (Return (created.mk (next_device_id sch db) "Device added successfully"),
         mkSession stored stored true true)
    | Some msg =>
        (Raise (HTTPException 400 msg), mkSession db db true true)
    end.
Proof.
  unfold run, add_device, new_device_row. fold (normalized_ip device).
  generalize (normalized_ip device). intros ip.
  unfold bind, try_except_finally, execute_write, insert_device. simpl.
  destruct (insert_violation sch db _); reflexivity.
Qed.

Lemma strip_empty_of_empty (s : string) : strip s <> "" -> s <> "".
Proof.
  intros H E. subst. apply H. reflexivity.
Qed.

Lemma string_eqb_empty (s : string) : s <> "" -> String.eqb s "" = false.
Proof.
  intros H. now apply String.eqb_neq.
Qed.

(** X1. An address with some non-blank character is stored exactly as
    sent, leading and trailing whitespace included: only the test strips. *)
Theorem add_device_keeps_ip_verbatim (sch : Schema) (db : DB)
    (device : DeviceCreate) (s : string) :
  ip_address device = Some s ->
  strip s <> "" ->
  insert_violation sch db (new_device_row sch db device) = None ->
  devices.ip_address (new_device_row sch db device) = Some s
  /\ exists r s',
      run (add_device sch device) db = (Return r, s')
      /\ In (new_device_row sch db device) (tbl_devices (committed s')).
Proof.
  intros Hip Hs Hok.
  assert (E : devices.ip_address (new_device_row sch db device) = Some s).
  { unfold new_device_row, normalized_ip. simpl. rewrite Hip. simpl.
    rewrite (string_eqb_empty _ Hs).
    now rewrite (string_eqb_empty _ (strip_empty_of_empty s Hs)). }
  split; [exact E|].
  rewrite add_device_run, Hok. eexists. eexists. split; [reflexivity|].
  simpl. apply in_or_app. right. now left.
Qed.

Lemma add_device_keeps_ip_verbatim_witness :
  devices.ip_address (new_device_row sample_schema sample_db padded_ip_body)
  = Some " 10.0.0.7 ".
Proof.
  refine (proj1 (add_device_keeps_ip_verbatim
                   sample_schema sample_db padded_ip_body " 10.0.0.7 "
                   eq_refl _ eq_refl)).
  vm_compute. discriminate.
Defined.

(** X2. When the database rejects the INSERT, POST /devices/ raises 400
    with the database's error text as detail, nothing is stored, and cursor
    and connection are closed. *)
Theorem add_device_rejected (sch : Schema) (db : DB) (device : DeviceCreate)
    (msg : string) :
  insert_violation sch db (new_device_row sch db device) = Some msg ->
  run (add_device sch device) db
  = (Raise (HTTPException 400 msg), mkSession db db true true).
Proof.
  intros H. now rewrite add_device_run, H.
Qed.

Lemma add_device_rejected_witness :
  run (add_device sample_schema (mkDeviceCreate 9 "Gate-09" None None None false))
      sample_db
  = (Raise (HTTPException 400 "foreign key violation on system_id"),
     mkSession sample_db sample_db true true).
Proof.
  exact (add_device_rejected sample_schema sample_db
           (mkDeviceCreate 9 "Gate-09" None None None false)
           "foreign key violation on system_id" eq_refl).
Defined.


Lemma add_device_committed (sch : Schema) (db : DB) (device : DeviceCreate)
    (r : created.t) (s' : Session) :
  run (add_device sch device) db = (Return r, s') ->
  r = created.mk (next_device_id sch db) "Device added successfully"
  /\ committed s'
     = set_devices (tbl_devices db ++ [new_device_row sch db device])%list db.
Proof.
  rewrite add_device_run.
  destruct (insert_violation sch db _); intros H; inversion H; subst.
  split; reflexivity.
Qed.




(** ** DELETE /devices/{device_id} *)

(** DELETE, evaluated. *)
Lemma delete_device_run (sch : Schema) (db : DB) (device_id : Z) :
  run (delete_device sch device_id) db
  = match select_device_id device_id db with
    | [] =>
        (Raise (HTTPException 404 "Device not found"), mkSession db db true true)
    | _ :: _ =>
        match delete_violation sch db device_id with
        | None =>
            let stored :=
              set_devices (filter (fun r => negb (devices.id r =? device_id))
                                  (tbl_devices db)) db in
            (Return ("Device " ++ str_of_int device_id
                     ++ " deleted successfully")%string,
             mkSession stored stored true true)
        | Some msg =>
            (Raise (HTTPException 400 msg), mkSession db db true true)
        end
    end.
Proof.
  unfold run, delete_device, bind, execute. simpl.
  destruct (select_device_id device_id db); simpl; [reflexivity|].
  unfold try_except_finally, bind, execute_write, delete_devices. simpl.
  destruct (delete_violation sch db device_id); reflexivity.
Qed.

(** X4. A DELETE the database accepts removes every row of that id and
    keeps every other row of [devices], answers with the id in its message,
    and a second DELETE of the same id then answers 404. *)
Theorem delete_device_removes_row (sch : Schema) (db : DB) (device_id : Z) :
  (exists d, In d (tbl_devices db) /\ devices.id d = device_id) ->
  delete_violation sch db device_id = None ->
  exists s',
    run (delete_device sch device_id) db
    = (Return ("Device " ++ str_of_int device_id ++ " deleted successfully")%string,
       s')
    /\ conn_closed s' = true
    /\ (forall d, In d (tbl_devices (committed s'))
                  <-> In d (tbl_devices db) /\ devices.id d <> device_id)
    /\ run (delete_device sch device_id) (committed s')
       = (Raise (HTTPException 404 "Device not found"),
          mkSession (committed s') (committed s') true true).
Proof.
  intros Hex Hok. destruct (select_device_id_some device_id db Hex) as [i [rest E]].
  rewrite delete_device_run, E, Hok. cbv zeta. eexists.
  split; [reflexivity|]. cbn [conn_closed committed]. split; [reflexivity|].
  assert (Hmem : forall d,
             In d (tbl_devices
                     (set_devices (filter (fun r => negb (devices.id r =? device_id))
                                          (tbl_devices db)) db))
             <-> In d (tbl_devices db) /\ devices.id d <> device_id).
  { intros d. cbn [tbl_devices set_devices]. rewrite filter_In.
    rewrite negb_true_iff, Z.eqb_neq. tauto. }
  split; [exact Hmem|].
  rewrite delete_device_run, select_device_id_none; [reflexivity|].
  intros d Hd. apply Hmem in Hd. tauto.
Qed.

Lemma delete_device_removes_row_witness :
  exists s',
    run (delete_device sample_schema 2) sample_db
    = (Return "Device 2 deleted successfully", s')
    /\ map devices.id (tbl_devices (committed s')) = [1; 3].
Proof.
  assert (Hex : exists d, In d (tbl_devices sample_db) /\ devices.id d = 2).
  { eexists. split; [right; left; reflexivity | reflexivity]. }
  destruct (delete_device_removes_row sample_schema sample_db 2 Hex eq_refl)
    as [s' [Hrun _]].
  exists s'. split; [exact Hrun|].
  inversion Hrun. reflexivity.
Defined.

(** X5. When the database rejects the DELETE of an existing device, the
    handler raises 400 with the database's text, the database is as before,
    and cursor and connection are closed. *)
Theorem delete_device_rejected (sch : Schema) (db : DB) (device_id : Z)
    (msg : string) :
  (exists d, In d (tbl_devices db) /\ devices.id d = device_id) ->
  delete_violation sch db device_id = Some msg ->
  run (delete_device sch device_id) db
  = (Raise (HTTPException 400 msg), mkSession db db true true).
Proof.
  intros Hex Hrej. destruct (select_device_id_some device_id db Hex) as [i [rest E]].
  now rewrite delete_device_run, E, Hrej.
Qed.

Lemma delete_device_rejected_witness :
  run (delete_device rejecting_schema 1) sample_db
  = (Raise (HTTPException 400 "permission denied for table devices"),
     mkSession sample_db sample_db true true).
Proof.
  refine (delete_device_rejected rejecting_schema sample_db 1
            "permission denied for table devices" _ eq_refl).
  eexists. split; [left; reflexivity | reflexivity].
Defined.

Lemma filter_none {A} (p : A -> bool) (l : list A) :
  (forall a, In a l -> p a = false) -> filter p l = [].
Proof.
  intros H. induction l as [|a l IH]; simpl; [reflexivity|].
  rewrite (H a (or_introl eq_refl)). apply IH. intros b Hb. apply H. now right.
Qed.

Lemma filter_all {A} (p : A -> bool) (l : list A) :
  (forall a, In a l -> p a = true) -> filter p l = l.
Proof.
  intros H. induction l as [|a l IH]; simpl; [reflexivity|].
  rewrite (H a (or_introl eq_refl)). f_equal. apply IH.
  intros b Hb. apply H. now right.
Qed.

(** X6. Creating a device and then deleting the id the POST returned puts
    the database back as it was, provided the generated id was not in use
    and the database accepts both statements. *)
Theorem add_then_delete_restores (sch : Schema) (db : DB) (device : DeviceCreate)
    (r : created.t) (s1 : Session) :
  (forall d, In d (tbl_devices db) -> devices.id d <> next_device_id sch db) ->
  run (add_device sch device) db = (Return r, s1) ->
  delete_violation sch (committed s1) (created.id r) = None ->
  run (delete_device sch (created.id r)) (committed s1)
  = (Return ("Device " ++ str_of_int (created.id r)
             ++ " deleted successfully")%string,
     mkSession db db true true).
Proof.
  intros Hfresh Hadd Hdel. apply add_device_committed in Hadd.
  destruct Hadd as [-> Hc]. cbn [created.id] in *.
  rewrite delete_device_run, Hdel. rewrite Hc.
  assert (Hsel : exists i rest,
             select_device_id (next_device_id sch db)
               (set_devices (tbl_devices db ++ [new_device_row sch db device])%list db)
             = i :: rest).
  { apply select_device_id_some. exists (new_device_row sch db device).
    split; [|reflexivity]. cbn [tbl_devices set_devices].
    apply in_or_app. right. now left. }
  destruct Hsel as [i [rest ->]]. cbv zeta.
  cbn [tbl_devices set_devices]. rewrite filter_app.
  rewrite (filter_all _ (tbl_devices db)).
  - cbn [filter new_device_row devices.id]. rewrite Z.eqb_refl.
    cbn [negb]. rewrite app_nil_r. destruct db; reflexivity.
  - intros d Hd. apply negb_true_iff, Z.eqb_neq. now apply Hfresh.
Qed.

Lemma add_then_delete_restores_witness :
  run (delete_device sample_schema 4)
      (committed (snd (run (add_device sample_schema padded_ip_body) sample_db)))
  = (Return "Device 4 deleted successfully",
     mkSession sample_db sample_db true true).
Proof.
  refine (add_then_delete_restores sample_schema sample_db padded_ip_body
            (created.mk 4 "Device added successfully")
            (snd (run (add_device sample_schema padded_ip_body) sample_db))
            _ eq_refl eq_refl).
  simpl. intros d [<-|[<-|[<-|[]]]]; simpl; lia.
Defined.

(** ** PUT /devices/{device_id} *)

(** X7. No PUT request ever succeeds or writes: whatever the id and the
    body, the handler raises, either 404 "Device not found" or the
    [AttributeError] of [device.is_LoRa], and the database is unchanged. *)
Theorem update_device_never_updates (sch : Schema) (db : DB) (device_id : Z)
    (device : DeviceCreate) :
  exists e s',
    run (update_device sch device_id device) db = (Raise e, s')
    /\ committed s' = db
    /\ (e = HTTPException 404 "Device not found"
        \/ e = AttributeError "'DeviceCreate' object has no attribute 'is_LoRa'").
Proof.
  unfold run, update_device, bind, execute. simpl.
  destruct (select_device_id device_id db); simpl.
  - eexists. eexists. split; [reflexivity|]. split; [reflexivity | now left].
  - destruct (ip_address device); simpl;
      (eexists; eexists; split; [reflexivity|]; split; [reflexivity | now right]).
Qed.

(** ** Release of the connection by the other handlers *)


(** ** GET /devices/{system_id} *)

Lemma inner_join_in {A B} (on : A -> B -> bool) (l : list A) (r : list B)
    (a : A) (b : B) :
  In (a, b) (inner_join on l r) <-> In a l /\ In b r /\ on a b = true.
Proof.
  unfold inner_join. rewrite in_flat_map. split.
  - intros [a' [Ha' Hin]]. apply in_map_iff in Hin.
    destruct Hin as [b' [Heq Hb']]. inversion Heq; subst.
    apply filter_In in Hb'. tauto.
  - intros [Ha [Hb Hon]]. exists a. split; [exact Ha|].
    apply in_map_iff. exists b. split; [reflexivity|].
    apply filter_In. tauto.
Qed.

Lemma system_rows_in (system_id : Z) (db : DB) (d : devices.row) (s : systems.row) :
  In (d, s) (filter (fun r => systems.id (snd r) =? system_id) (devices_systems db))
  <-> In d (tbl_devices db) /\ In s (tbl_systems db)
      /\ devices.system_id d = system_id /\ systems.id s = system_id.
Proof.
  rewrite filter_In. unfold devices_systems. rewrite inner_join_in.
  cbn [snd]. rewrite !Z.eqb_eq. split.
  - intros [[Hd [Hs E1]] E2]. repeat split; congruence.
  - intros [Hd [Hs [E1 E2]]]. repeat split; congruence.
Qed.

(** X9. GET /devices/{system_id} answers 404, with the id in the detail and
    the connection closed, whenever no device row joins a [systems] row of
    that id: for an unknown system, and equally for a system that exists but
    has no devices. *)
Theorem get_devices_system_id_404 (system_id : Z) (db : DB) :
  (forall d s, In d (tbl_devices db) -> In s (tbl_systems db) ->
               ~ (devices.system_id d = system_id /\ systems.id s = system_id)) ->
  run (get_devices_system_id system_id) db
  = (Raise (HTTPException 404
              ("No devices found for system_id " ++ str_of_int system_id)%string),
     mkSession db db true true).
Proof.
  intros H. unfold run, get_devices_system_id, bind, execute. simpl.
  destruct (filter _ (devices_systems db)) as [|[d s] l] eqn:E; [reflexivity|].
  exfalso. assert (Hin : In (d, s) (filter (fun r => systems.id (snd r) =? system_id)
                                           (devices_systems db))).
  { rewrite E. now left. }
  apply system_rows_in in Hin. destruct Hin as [Hd [Hs Heq]].
  exact (H d s Hd Hs Heq).
Qed.

Lemma get_devices_system_id_404_witness :
  In (systems.mk 2 "plant-b" "Plant B") (tbl_systems sample_db)
  /\ run (get_devices_system_id 2) sample_db
     = (Raise (HTTPException 404 "No devices found for system_id 2"),
        mkSession sample_db sample_db true true).
Proof.
  split; [right; left; reflexivity|].
  refine (get_devices_system_id_404 2 sample_db _).
  intros d s Hd _ [E _]. simpl in Hd.
  destruct Hd as [Hd|[Hd|[Hd|Hd]]]; try contradiction;
    subst d; simpl in E; discriminate.
Defined.



(** ** The status listings *)

Lemma left_join_keeps {A B} (on : A -> B -> bool) (l : list A) (r : list B)
    (a : A) :
  In a l ->
  (exists b, In b r /\ on a b = true /\ In (a, Some b) (left_join on l r))
  \/ ((forall b, In b r -> on a b = false) /\ In (a, None) (left_join on l r)).
Proof.
  intros Ha. destruct (filter (on a) r) as [|b ms] eqn:E.
  - right. split.
    + intros b Hb. destruct (on a b) eqn:Hon; [|reflexivity].
      assert (Hin : In b (filter (on a) r)) by (apply filter_In; auto).
      rewrite E in Hin. contradiction.
    + unfold left_join. apply in_flat_map. exists a. split; [exact Ha|].
      rewrite E. now left.
  - left. assert (Hin : In b (filter (on a) r)) by (rewrite E; now left).
    apply filter_In in Hin. destruct Hin as [Hb Hon]. exists b.
    split; [exact Hb|]. split; [exact Hon|].
    apply left_join_in_some. auto.
Qed.

Lemma left_join_in_none {A B} (on : A -> B -> bool) (l : list A) (r : list B)
    (a : A) :
  In (a, None) (left_join on l r) -> forall b, In b r -> on a b = false.
Proof.
  unfold left_join. rewrite in_flat_map. intros [a' [Ha' Hin]] b Hb.
  destruct (filter (on a') r) as [|m ms] eqn:E.
  - destruct Hin as [Hin|[]]. inversion Hin; subst.
    destruct (on a b) eqn:Hon; [|reflexivity].
    assert (Hf : In b (filter (on a) r)) by (apply filter_In; auto).
    rewrite E in Hf. contradiction.
  - apply in_map_iff in Hin. destruct Hin as [b' [Heq _]]. discriminate.
Qed.

Lemma get_all_devices_status_run (db : DB) :
  run get_all_devices_status db
  = (Return (last_response.mk
               (count (devices_systems_status db))
               (map (fun j : devices.row * systems.row * option device_status.row =>
                       let lora := devices.is_lora (fst (fst j)) in
                       last_entry.mk
                         (devices.device_name (fst (fst j)))
                         (devices.system_id (fst (fst j)))
                         (systems.name (snd (fst j)))
                         (if lora then None else devices.ip_address (fst (fst j)))
                         lora
                         (if lora then None
                          else col (snd j) device_status.ping_status)
                         (if lora then None
                          else col (snd j) device_status.ssh_status)
                         (ldt (snd j)))
                    (devices_systems_status db))),
     mkSession db db true true).
Proof.
  unfold run, get_all_devices_status, bind, execute, ret. simpl.
  rewrite map_map. unfold count. rewrite !length_map. do 3 f_equal.
  apply map_ext. intros [[d s] st]. reflexivity.
Qed.


(** X12. Every entry of GET /ip has a non-null address (a device stored
    without address is never listed), and "total" is the number of
    entries. *)
Theorem ip_listing_has_addresses (db : DB) :
  exists r,
    run get_ip_devices_status db = (Return r, mkSession db db true true)
    /\ ip_response.total r = Z.of_nat (List.length (ip_response.devices r))
    /\ Forall (fun e => ip_entry.ip e <> None) (ip_response.devices r).
Proof.
  eexists. split; [reflexivity|].
  cbn [ip_response.total ip_response.devices]. split.
  - unfold count. now rewrite length_map.
  - apply Forall_forall. intros e He. apply in_map_iff in He.
    destruct He as [[[d s] st] [<- Hin]]. apply filter_In in Hin.
    destruct Hin as [_ Hip]. simpl in *.
    destruct (devices.ip_address d); [discriminate | discriminate].
Qed.

(** X13. For a device that is not LoRa, GET /last and GET /last/{system_id}
    report the stored address and the status columns of its status row
    unchanged; the last data time is reported as stored for every device,
    LoRa or not. *)
Theorem last_reports_stored_values (system_id : Z) (db : DB) :
  (exists r,
      run get_all_devices_status db = (Return r, mkSession db db true true)
      /\ Forall2 (fun e j =>
                    last_entry.last_data_time e = ldt (snd j)
                    /\ (devices.is_lora (fst (fst j)) = false ->
                        last_entry.ip_address e = devices.ip_address (fst (fst j))
                        /\ last_entry.ping_status e
                           = col (snd j) device_status.ping_status
                        /\ last_entry.ssh_status e
                           = col (snd j) device_status.ssh_status))
                 (last_response.devices r) (devices_systems_status db))
  /\ (exists rows,
         run (get_latest_device_status system_id) db
         = (Return rows, mkSession db db true true)
         /\ Forall2 (fun e j =>
                       last_row.last_data_time e = ldt (snd j)
                       /\ (devices.is_lora (fst (fst j)) = false ->
                           last_row.ip_address e = devices.ip_address (fst (fst j))
                           /\ last_row.ping_status e
                              = col (snd j) device_status.ping_status
                           /\ last_row.ssh_status e
                              = col (snd j) device_status.ssh_status))
                    rows
                    (filter (fun j => devices.system_id (fst (fst j)) =? system_id)
                            (devices_systems_status db))).
Proof.
  split.
  - eexists. split; [apply get_all_devices_status_run|].
    cbn [last_response.devices]. apply Forall2_map_self.
    intros [[d s] st]. simpl. split; [reflexivity|]. intros ->. auto.
  - exists (map (fun j => null_lora (select_last j))
                (filter (fun j => devices.system_id (fst (fst j)) =? system_id)
                        (devices_systems_status db))).
    split.
    { unfold run, get_latest_device_status, bind, execute, ret. simpl.
      now rewrite map_map. }
    apply Forall2_map_self. intros [[d s] st]. unfold null_lora. simpl.
    destruct (devices.is_lora d); simpl; split; try reflexivity.
    + discriminate.
    + auto.
Qed.

(** X14. GET /last/{system_id} lists the devices of the system and only
    them: every row is a device whose [system_id] is the requested id, joined
    to a [systems] row of that id; every such device has a row; and a device
    that has no status row is still listed, with null [ping_status],
    [ssh_status] and [last_data_time]. *)
Theorem latest_status_lists_every_device (system_id : Z) (db : DB) :
  exists rows,
    run (get_latest_device_status system_id) db
    = (Return rows, mkSession db db true true)
    /\ (forall row, In row rows ->
          exists d s, In d (tbl_devices db) /\ In s (tbl_systems db)
                      /\ devices.system_id d = system_id
                      /\ systems.id s = system_id
                      /\ last_row.device_id row = devices.id d
                      /\ last_row.system_name row = systems.name s)
    /\ (forall d s, In d (tbl_devices db) -> In s (tbl_systems db) ->
                    devices.system_id d = system_id -> systems.id s = system_id ->
          (exists row, In row rows
                       /\ last_row.device_id row = devices.id d
                       /\ last_row.device_name row = devices.device_name d)
          /\ ((forall st, In st (tbl_device_status db) ->
                          device_status.device_id st <> devices.id d) ->
              In (last_row.mk (devices.id d) (devices.device_name d)
                              (devices.system_id d) (systems.name s)
                              (if devices.is_lora d then None
                               else devices.ip_address d)
                              (devices.is_lora d) None None None)
                 rows)).
Proof.
  exists (map (fun j => null_lora (select_last j))
              (filter (fun j => devices.system_id (fst (fst j)) =? system_id)
                      (devices_systems_status db))).
  split.
  { unfold run, get_latest_device_status, bind, execute, ret. simpl.
    now rewrite map_map. }
  split.
  - intros row Hrow. apply in_map_iff in Hrow.
    destruct Hrow as [[[d s] ob] [<- Hin]]. apply filter_In in Hin.
    destruct Hin as [Hin Hsys]. cbn [fst] in Hsys. apply Z.eqb_eq in Hsys.
    unfold devices_systems_status in Hin. apply left_join_in_fst in Hin.
    unfold devices_systems in Hin. apply inner_join_in in Hin.
    destruct Hin as [Hd [Hs Hon]]. apply Z.eqb_eq in Hon.
    exists d, s. repeat split; try assumption; try congruence.
    + unfold null_lora. simpl. destruct (devices.is_lora d); reflexivity.
    + unfold null_lora. simpl. destruct (devices.is_lora d); reflexivity.
  - intros d s Hd Hs Hsys Hid.
    assert (Hds : In (d, s) (devices_systems db)).
    { unfold devices_systems. apply inner_join_in.
      split; [exact Hd|]. split; [exact Hs|]. apply Z.eqb_eq. congruence. }
    pose proof (left_join_keeps
                  (fun ds st => devices.id (fst ds) =? device_status.device_id st)
                  (devices_systems db) (tbl_device_status db) (d, s) Hds) as Hk.
    fold (devices_systems_status db) in Hk.
    assert (Hrow : forall ob, In (d, s, ob) (devices_systems_status db) ->
               In (null_lora (select_last (d, s, ob)))
                  (map (fun j => null_lora (select_last j))
                       (filter (fun j => devices.system_id (fst (fst j)) =? system_id)
                               (devices_systems_status db)))).
    { intros ob Hob. apply in_map_iff. exists (d, s, ob). split; [reflexivity|].
      apply filter_In. split; [exact Hob|]. cbn [fst]. now apply Z.eqb_eq. }
    split.
    + destruct Hk as [[b [_ [_ Hin]]]|[_ Hin]].
      * exists (null_lora (select_last (d, s, Some b))).
        split; [now apply Hrow|]. unfold null_lora. simpl.
        destruct (devices.is_lora d); split; reflexivity.
      * exists (null_lora (select_last (d, s, None))).
        split; [now apply Hrow|]. unfold null_lora. simpl.
        destruct (devices.is_lora d); split; reflexivity.
    + intros Hnone. destruct Hk as [[b [Hb [Hon _]]]|[_ Hin]].
      * exfalso. cbn [fst] in Hon. apply Z.eqb_eq in Hon.
        apply (Hnone b Hb). congruence.
      * apply Hrow in Hin. unfold null_lora in Hin. simpl in Hin.
        destruct (devices.is_lora d); exact Hin.
Qed.

(** ** GET /time on a non-empty history *)

Lemma order_by_head {A} (key : A -> Z) (l : list A) :
  l <> [] ->
  exists h t, order_by key l = h :: t
              /\ In h l /\ forall x, In x l -> key h <= key x.
Proof.
  intros Hne. pose proof (order_by_perm key l) as Hp.
  pose proof (order_by_sorted key l) as Hs.
  destruct (order_by key l) as [|h t].
  - apply Permutation_nil in Hp. contradiction.
  - exists h, t. split; [reflexivity|]. split.
    + eapply Permutation_in; [exact Hp | now left].
    + intros x Hx. apply (Permutation_in _ (Permutation_sym Hp)) in Hx.
      inversion Hs as [|a l' _ Hall]; subst. destruct Hx as [<-|Hx].
      * lia.
      * rewrite Forall_forall in Hall. exact (Hall x Hx).
Qed.

(** X15. With at least one history row, GET /time returns, with the
    connection closed, the [checked_at] of a stored row that is not earlier
    than any other: the time of the latest snapshot. *)
Theorem get_update_time_latest (db : DB) :
  tbl_device_status_history db <> [] ->
  exists t,
    run get_update_time db = (Return t, mkSession db db true true)
    /\ (exists h, In h (tbl_device_status_history db)
                  /\ device_status_history.checked_at h = t)
    /\ (forall h, In h (tbl_device_status_history db) ->
                  device_status_history.checked_at h <= t).
Proof.
  intros Hne.
  destruct (order_by_head (fun h => - device_status_history.checked_at h)
              (tbl_device_status_history db) Hne) as [h [t [E [Hin Hmin]]]].
  exists (device_status_history.checked_at h). split.
  - unfold run, get_update_time, bind, execute. simpl. rewrite E. reflexivity.
  - split; [exists h; auto|]. intros x Hx. specialize (Hmin x Hx). lia.
Qed.

Lemma get_update_time_latest_witness :
  exists t,
    run get_update_time sample_db
    = (Return t, mkSession sample_db sample_db true true)
    /\ t = 7 * day + 600000.
Proof.
  assert (Hne : tbl_device_status_history sample_db <> []) by discriminate.
  destruct (get_update_time_latest sample_db Hne) as [t [Hrun _]].
  exists t. split; [exact Hrun|]. inversion Hrun. reflexivity.
Defined.

(** ** More on GET /check *)

Lemma count_distinct_none {A} (e : A -> option Z) (rows : list A) :
  (forall r, In r rows -> e r = None) -> count_distinct e rows = 0.
Proof.
  intros H. unfold count_distinct.
  replace (cat_somes (map e rows)) with (@nil Z); [reflexivity|].
  induction rows as [|r rows IH]; simpl; [reflexivity|].
  rewrite (H r (or_introl eq_refl)). apply IH. intros x Hx. apply H. now right.
Qed.

Lemma systems_devices_status_keys (db : DB) (k : systems.row) :
  In k (map (fun r => fst (fst r)) (systems_devices_status db))
  <-> In k (tbl_systems db).
Proof.
  rewrite in_map_iff. split.
  - intros [[[s od] ost] [<- Hin]]. cbn [fst].
    unfold systems_devices_status in Hin. apply left_join_in_fst in Hin.
    now apply left_join_in_fst in Hin.
  - intros Hk.
    destruct (left_join_keeps (fun s d => systems.id s =? devices.system_id d)
                (tbl_systems db) (tbl_devices db) k Hk)
      as [[d [_ [_ Hin]]]|[_ Hin]].
    + destruct (left_join_keeps
                  (fun sd st => holds (sql_eq (dev_id (snd sd))
                                         (Some (device_status.device_id st))))
                  _ (tbl_device_status db) (k, Some d) Hin)
        as [[b [_ [_ Hin']]]|[_ Hin']];
        eexists; (split; [|exact Hin']); reflexivity.
    + destruct (left_join_keeps
                  (fun sd st => holds (sql_eq (dev_id (snd sd))
                                         (Some (device_status.device_id st))))
                  _ (tbl_device_status db) (k, None) Hin)
        as [[b [_ [_ Hin']]]|[_ Hin']];
        eexists; (split; [|exact Hin']); reflexivity.
Qed.

Lemma check_run (now : timestamp) (db : DB) :
  run (get_device_status_check now) db
  = (Return (check_response.mk
               (count (tbl_devices db))
               (count_distinct (fun r => Some (devices.id (fst r)))
                  (filter (fun r => holds (active_cond now (snd r)))
                          (devices_status db)))
               (count (tbl_devices db)
                - count_distinct (fun r => Some (devices.id (fst r)))
                    (filter (fun r => holds (active_cond now (snd r)))
                            (devices_status db)))
               (select_system_status now db)),
     mkSession db db true true).
Proof. reflexivity. Qed.

(** X16. The "systems" list of GET /check has one entry for each distinct
    row of [systems], whether or not the system has devices, and the entries
    are in ascending order of system id. *)
Theorem check_lists_every_system (now : timestamp) (db : DB) :
  exists r,
    run (get_device_status_check now) db = (Return r, mkSession db db true true)
    /\ Permutation
         (map (fun e => systems.mk (system_status.system_id e)
                                   (system_status.system_name e)
                                   (system_status.description e))
              (check_response.systems r))
         (nodup systems_row_eq_dec (tbl_systems db))
    /\ StronglySorted (le_by system_status.system_id) (check_response.systems r).
Proof.
  eexists. split; [apply check_run|]. cbn [check_response.systems].
  unfold select_system_status. split; [|apply order_by_sorted].
  eapply perm_trans; [apply Permutation_map, order_by_perm|].
  unfold group_by_system. rewrite !map_map.
  rewrite (map_ext _ (fun k : systems.row => k)), map_id.
  - apply NoDup_Permutation; try apply NoDup_nodup.
    intros k. rewrite !nodup_In. apply systems_devices_status_keys.
  - intros [i n d]. reflexivity.
Qed.

(** X17. A system with no devices appears in GET /check with
    [system_total_devices], [active_devices] and [inactive_devices] all 0. *)
Theorem check_system_without_devices (now : timestamp) (db : DB) (k : systems.row) :
  In k (tbl_systems db) ->
  (forall d, In d (tbl_devices db) -> devices.system_id d <> systems.id k) ->
  exists r,
    run (get_device_status_check now) db = (Return r, mkSession db db true true)
    /\ In (system_status.mk (systems.id k) (systems.name k) (systems.description k)
                            0 0 0)
          (check_response.systems r).
Proof.
  intros Hk Hnone. eexists. split; [apply check_run|].
  cbn [check_response.systems]. unfold select_system_status.
  eapply Permutation_in; [apply Permutation_sym, order_by_perm|].
  apply in_map_iff.
  exists (k, filter (fun r => if systems_row_eq_dec (fst (fst r)) k
                              then true else false)
                    (systems_devices_status db)).
  split.
  - assert (Hnull : forall r,
               In r (filter (fun r => if systems_row_eq_dec (fst (fst r)) k
                                      then true else false)
                            (systems_devices_status db)) ->
               dev_id (snd (fst r)) = None).
    { intros [[s od] ost] Hr. apply filter_In in Hr. destruct Hr as [Hin Hkey].
      cbn [fst snd] in *. destruct (systems_row_eq_dec s k) as [->|]; [|discriminate].
      destruct od as [d|]; [|reflexivity]. exfalso.
      unfold systems_devices_status in Hin. apply left_join_in_fst in Hin.
      apply left_join_in_some in Hin. destruct Hin as [_ [Hd Hon]].
      apply Z.eqb_eq in Hon. apply (Hnone d Hd). congruence. }
    unfold aggregate_system. f_equal.
    + apply count_distinct_none. exact Hnull.
    + apply count_distinct_none. intros r Hr. unfold case_when.
      rewrite (Hnull r Hr). now destruct (holds _).
    + apply count_distinct_none. intros r Hr. unfold case_when.
      rewrite (Hnull r Hr). now destruct (holds _).
  - unfold group_by_system. apply in_map_iff. exists k. split; [reflexivity|].
    apply nodup_In. now apply systems_devices_status_keys.
Qed.

Lemma check_system_without_devices_witness :
  exists r,
    run (get_device_status_check sample_now) sample_db
    = (Return r, mkSession sample_db sample_db true true)
    /\ In (system_status.mk 2 "plant-b" "Plant B" 0 0 0) (check_response.systems r).
Proof.
  refine (check_system_without_devices sample_now sample_db
            (systems.mk 2 "plant-b" "Plant B") _ _).
  - right. left. reflexivity.
  - intros d Hd. simpl in Hd.
    destruct Hd as [Hd|[Hd|[Hd|Hd]]]; try contradiction; subst d; discriminate.
Defined.

(** X18. In GET /check the fleet count of active devices is between 0 and
    [total_devices], so [inactive_devices] is never negative; this holds
    for every database state, duplicated status rows included. *)
Theorem check_fleet_counts_bounded (now : timestamp) (db : DB) :
  exists r,
    run (get_device_status_check now) db = (Return r, mkSession db db true true)
    /\ 0 <= check_response.active_devices r <= check_response.total_devices r
    /\ 0 <= check_response.inactive_devices r.
Proof.
  eexists. split; [apply check_run|].
  cbn [check_response.active_devices check_response.total_devices
       check_response.inactive_devices].
  assert (H : count_distinct (fun r => Some (devices.id (fst r)))
                (filter (fun r => holds (active_cond now (snd r)))
                        (devices_status db))
              <= count (tbl_devices db)).
  { unfold count_distinct, count. apply Nat2Z.inj_le.
    rewrite <- (length_map devices.id (tbl_devices db)).
    apply NoDup_incl_length; [apply NoDup_nodup|].
    intros i Hi. apply nodup_In, in_cat_somes_map in Hi.
    destruct Hi as [[d ost] [Hin Hr]]. inversion Hr; subst.
    apply filter_In in Hin. destruct Hin as [Hin _].
    unfold devices_status in Hin. apply left_join_in_fst in Hin.
    now apply in_map. }
  unfold count_distinct in *. lia.
Qed.

(** ** More on GET /check/{system_id} *)

(** X19. With one status row per device, the counts of
    GET /check/{system_id} are the lengths of its two lists, and every device
    of the system is in exactly one of them:
    [total_devices = active_devices + inactive_devices], none negative. *)
Theorem check_system_counts_match_lists (now : timestamp) (system_id : Z)
    (db : DB) (r : check_system_response.t) (s' : Session) :
  one_status_per_device db ->
  run (get_device_status_check_system now system_id) db = (Return r, s') ->
  check_system_response.active_devices r
  = Z.of_nat (List.length (check_system_response.active_device_list r))
  /\ check_system_response.inactive_devices r
     = Z.of_nat (List.length (check_system_response.inactive_device_list r))
  /\ check_system_response.total_devices r
     = check_system_response.active_devices r
       + check_system_response.inactive_devices r
  /\ check_system_response.system_id r = system_id.
Proof.
  intros Hone. rewrite check_system_run.
  destruct (find _ (tbl_systems db)) as [s|]; [|discriminate].
  cbv zeta. intros H. inversion H; subst. clear H.
  cbn [check_system_response.active_devices
       check_system_response.inactive_devices
       check_system_response.total_devices
       check_system_response.system_id
       check_system_response.active_device_list
       check_system_response.inactive_device_list].
  rewrite (system_devices_where_active now system_id db Hone).
  rewrite (system_devices_where_inactive now system_id db Hone).
  unfold count. rewrite !length_map.
  pose proof (filter_and_length_split
                (fun d => devices.system_id d =? system_id)
                (device_active now db) (tbl_devices db)) as Hsplit.
  repeat split; lia.
Qed.

Lemma check_system_counts_match_lists_witness :
  match run (get_device_status_check_system sample_now 1) sample_db with
  | (Return r, _) =>
      check_system_response.active_devices r
      = Z.of_nat (List.length (check_system_response.active_device_list r))
      /\ check_system_response.total_devices r
         = check_system_response.active_devices r
           + check_system_response.inactive_devices r
  | (Raise _, _) => False
  end.
Proof.
  destruct (run (get_device_status_check_system sample_now 1) sample_db)
    as [[r|e] s'] eqn:E.
  - destruct (check_system_counts_match_lists sample_now 1 sample_db r s'
                sample_one_status_per_device E) as [Ha [_ [Ht _]]].
    split; [exact Ha | exact Ht].
  - rewrite check_system_run in E. simpl in E. discriminate.
Defined.

(** X20. GET /check/{system_id} answers 404 with the id in the detail
    exactly when no [systems] row has that id; the 404 is raised with the
    connection open and nothing written. *)
Theorem check_system_unknown_404 (now : timestamp) (system_id : Z) (db : DB) :
  (forall s, In s (tbl_systems db) -> systems.id s <> system_id)
  <-> run (get_device_status_check_system now system_id) db
      = (Raise (HTTPException 404
                  ("System with ID " ++ str_of_int system_id ++ " not found")%string),
         get_db_connection db).
Proof.
  rewrite check_system_run. split.
  - intros H. destruct (find _ (tbl_systems db)) as [s|] eqn:F; [|reflexivity].
    apply find_some in F. destruct F as [Hin Hid]. apply Z.eqb_eq in Hid.
    exfalso. exact (H s Hin Hid).
  - destruct (find _ (tbl_systems db)) as [s|] eqn:F; [discriminate|].
    intros _ s Hs Hid.
    pose proof (find_none _ _ F s Hs) as Hn. cbn beta in Hn.
    apply Z.eqb_neq in Hn. contradiction.
Qed.

(** X21. For a system that exists but has no devices, GET /check/{system_id}
    still returns (where GET /devices/{system_id} answers 404): all three
    counts are 0 and both lists are empty. *)
Theorem check_system_without_devices_returns (now : timestamp) (system_id : Z)
    (db : DB) :
  (exists s, In s (tbl_systems db) /\ systems.id s = system_id) ->
  (forall d, In d (tbl_devices db) -> devices.system_id d <> system_id) ->
  (exists r,
      run (get_device_status_check_system now system_id) db
      = (Return r, mkSession db db true true)
      /\ check_system_response.total_devices r = 0
      /\ check_system_response.active_devices r = 0
      /\ check_system_response.inactive_devices r = 0
      /\ check_system_response.active_device_list r = []
      /\ check_system_response.inactive_device_list r = [])
  /\ run (get_devices_system_id system_id) db
     = (Raise (HTTPException 404
                 ("No devices found for system_id " ++ str_of_int system_id)%string),
        mkSession db db true true).
Proof.
  intros [s0 [Hs0 Hid0]] Hnone. split.
  - rewrite check_system_run.
    destruct (find _ (tbl_systems db)) as [s|] eqn:F.
    + assert (Hw : forall cond, system_devices_where cond system_id db = []).
      { intros cond. unfold system_devices_where. apply filter_none.
        intros [d ost] Hin. unfold devices_status in Hin.
        apply left_join_in_fst in Hin. cbn [fst snd].
        rewrite holds_and_bool.
        destruct (Z.eqb_spec (devices.system_id d) system_id) as [E|E];
          [|reflexivity].
        exfalso. exact (Hnone d Hin E). }
      assert (Ht : filter (fun d => devices.system_id d =? system_id)
                          (tbl_devices db) = []).
      { apply filter_none. intros d Hd. apply Z.eqb_neq. now apply Hnone. }
      cbv zeta. rewrite !Hw, Ht. eexists. split; [reflexivity|].
      repeat split; reflexivity.
    + exfalso. pose proof (find_none _ _ F s0 Hs0) as Hn. cbn beta in Hn.
      apply Z.eqb_neq in Hn. contradiction.
  - unfold run, get_devices_system_id, bind, execute. simpl.
    rewrite filter_none; [reflexivity|].
    intros [d s] Hin. unfold devices_systems in Hin. apply inner_join_in in Hin.
    destruct Hin as [Hd [_ Hon]]. cbn [snd]. apply Z.eqb_eq in Hon.
    apply Z.eqb_neq. intros E. apply (Hnone d Hd). congruence.
Qed.

Lemma check_system_without_devices_returns_witness :
  exists r,
    run (get_device_status_check_system sample_now 2) sample_db
    = (Return r, mkSession sample_db sample_db true true)
    /\ check_system_response.total_devices r = 0.
Proof.
  assert (Hs : exists s, In s (tbl_systems sample_db) /\ systems.id s = 2).
  { eexists. split; [right; left; reflexivity | reflexivity]. }
  assert (Hd : forall d, In d (tbl_devices sample_db) -> devices.system_id d <> 2).
  { intros d H. simpl in H.
    destruct H as [H|[H|[H|H]]]; try contradiction; subst d; discriminate. }
  destruct (proj1 (check_system_without_devices_returns sample_now 2 sample_db
                     Hs Hd)) as [r [Hrun [Ht _]]].
  exists r. split; [exact Hrun | exact Ht].
Defined.
